(** * The OpenRazer troubleshooter of Polychromatic

    A shallow embedding of [pylib/troubleshoot/openrazer.py]: the Python
    built-ins the module relies on ([str.strip], [str.split], [str.find],
    [str.replace], [int], [float]), the host facts its probes read, the
    individual checks, and the [troubleshoot] runner, followed by the
    properties of the specification.

    Modelling conventions.
    - Text is ASCII: a Python [str] is a [string].
    - An exception is a value of [exn]; a computation that may raise has
      type [result A].
    - A Python [float] is an IEEE-754 binary64 number; every finite one is
      an integer multiple of 2^-1074 and is represented by that integer.
    - [int] is unbounded, as in Python (the interpreter's optional limit on
      the length of the digit string is not modelled). *)

From Stdlib Require Import ZArith QArith List Bool Ascii String Lia.
From Stdlib Require Import DecimalString DecimalPos DecimalZ.
Import ListNotations.

Local Open Scope string_scope.
Local Open Scope Z_scope.

(** ** Exceptions and results *)

Inductive exn : Type :=
| KeyError (key : string)
| ValueError (msg : string)
| IndexError
| UnboundLocalError (var : string)
| OSError (msg : string)
| RequestException (msg : string).

Inductive result (A : Type) : Type :=
| Ok (a : A)
| Raise (e : exn).

Arguments Ok {A} a.
Arguments Raise {A} e.

Definition bind {A B : Type} (c : result A) (k : A -> result B) : result B :=
  match c with
  | Ok a => k a
  | Raise e => Raise e
  end.

Declare Scope py_scope.
Delimit Scope py_scope with py.
Notation "x <- c ;; k" := (bind c (fun x => k))
  (at level 100, c at next level, right associativity) : py_scope.
Local Open Scope py_scope.

(** ** Python string built-ins *)

Module PyStr.

Definition code (c : ascii) : Z := Z.of_N (N_of_ascii c).

(** [str.isspace] on the ASCII range. *)
Definition is_space (c : ascii) : bool :=
  let n := code c in
  ((9 <=? n) && (n <=? 13)) || ((28 <=? n) && (n <=? 32)).

Definition is_digit (c : ascii) : bool :=
  let n := code c in (48 <=? n) && (n <=? 57).

Definition digit_val (c : ascii) : Z := code c - 48.

Definition lower (c : ascii) : ascii :=
  let n := code c in
  if (65 <=? n) && (n <=? 90) then ascii_of_N (Z.to_N (n + 32)) else c.

Fixpoint lowercase (s : string) : string :=
  match s with
  | EmptyString => EmptyString
  | String c r => String (lower c) (lowercase r)
  end.

(** The white space of the C locale, which [int] and [float] skip
    around an ASCII literal. *)
Definition is_cspace (c : ascii) : bool :=
  let n := code c in
  ((9 <=? n) && (n <=? 13)) || (n =? 32).

Fixpoint lstrip_by (p : ascii -> bool) (s : string) : string :=
  match s with
  | EmptyString => EmptyString
  | String c r => if p c then lstrip_by p r else s
  end.

Fixpoint rstrip_by (p : ascii -> bool) (s : string) : string :=
  match s with
  | EmptyString => EmptyString
  | String c r =>
      match rstrip_by p r with
      | EmptyString => if p c then EmptyString else String c EmptyString
      | r' => String c r'
      end
  end.

Definition strip_by (p : ascii -> bool) (s : string) : string :=
  rstrip_by p (lstrip_by p s).

(** [s.strip()] *)
Definition strip (s : string) : string := strip_by is_space s.

(** [s.split(sep)] for a one-character separator. *)
Fixpoint split (sep : ascii) (s : string) : list string :=
  match s with
  | EmptyString => [EmptyString]
  | String c r =>
      if Ascii.eqb c sep then EmptyString :: split sep r
      else match split sep r with
           | h :: t => String c h :: t
           | [] => [String c EmptyString]
           end
  end.

(** [sep.join(l)] with the empty separator. *)
Definition join (l : list string) : string :=
  fold_right String.append EmptyString l.

(** [s.find(sub) != -1] *)
Fixpoint contains (sub s : string) : bool :=
  if String.prefix sub s then true
  else match s with
       | EmptyString => false
       | String _ r => contains sub r
       end.

Fixpoint drop (n : nat) (s : string) : string :=
  match n, s with
  | O, _ => s
  | S n', String _ r => drop n' r
  | S _, EmptyString => EmptyString
  end.

(** [s.replace(old, new)] for a non-empty [old]: every occurrence, left
    to right, without overlap.  [fuel] bounds the number of steps and is
    the length of [s] plus one. *)
Fixpoint replace_go (fuel : nat) (old new s : string) : string :=
  match fuel with
  | O => s
  | S fuel' =>
      match s with
      | EmptyString => EmptyString
      | String c r =>
          if String.prefix old s
          then new ++ replace_go fuel' old new (drop (String.length old) s)
          else String c (replace_go fuel' old new r)
      end
  end.

Definition replace (old new s : string) : string :=
  replace_go (S (String.length s)) old new s.

(** [str(n)] for an integer. *)
Definition str_of_int (n : Z) : string :=
  DecimalString.NilZero.string_of_int (Z.to_int n).

(** [l[i]] for [i >= 0] and [l[-1]]. *)
Definition index {A : Type} (l : list A) (i : nat) : result A :=
  match nth_error l i with
  | Some a => Ok a
  | None => Raise IndexError
  end.

Definition index_last {A : Type} (l : list A) : result A :=
  index (rev l) 0.

(** [digitpart ::= digit (["_"] digit)*]: the value read so far and the
    number of digits. *)
Fixpoint digitpart (acc cnt : Z) (s : string) : option (Z * Z) :=
  match s with
  | EmptyString => None
  | String c r =>
      if is_digit c then
        let acc' := 10 * acc + digit_val c in
        match r with
        | EmptyString => Some (acc', cnt + 1)
        | String c' r' =>
            if Ascii.eqb c' "_" then digitpart acc' (cnt + 1) r'
            else digitpart acc' (cnt + 1) r
        end
      else None
  end.

(** An optional sign in front of [s]: whether it is a minus, and the rest. *)
Definition sign (s : string) : bool * string :=
  match s with
  | String c r =>
      if Ascii.eqb c "-" then (true, r)
      else if Ascii.eqb c "+" then (false, r)
      else (false, s)
  | EmptyString => (false, s)
  end.

(** [int(s)] in base ten: [None] stands for [ValueError]. *)
Definition parse_int (s : string) : option Z :=
  let (neg, body) := sign (strip_by is_cspace s) in
  match digitpart 0 0 body with
  | Some (v, _) => Some (if neg then - v else v)
  | None => None
  end.

(** The characters [repr] treats apart. *)
Definition backslash : ascii := ascii_of_nat 92.
Definition single_quote : ascii := ascii_of_nat 39.
Definition double_quote : ascii := ascii_of_nat 34.

Fixpoint has (c : ascii) (s : string) : bool :=
  match s with
  | EmptyString => false
  | String x r => Ascii.eqb x c || has c r
  end.

(** A hexadecimal digit, in lower case. *)
Definition hex_digit (n : Z) : ascii :=
  ascii_of_N (Z.to_N (if n <? 10 then 48 + n else 87 + n)).

(** A character as [repr] writes it between the quotes [quote]: the
    quote and the backslash behind a backslash, the tabulation, the line
    feed and the carriage return by their letter, the other characters
    that do not print by their code. *)
Definition escape (quote c : ascii) : string :=
  let n := code c in
  if Ascii.eqb c quote || Ascii.eqb c backslash
  then String backslash (String c EmptyString)
  else if n =? 9 then String backslash "t"
  else if n =? 10 then String backslash "n"
  else if n =? 13 then String backslash "r"
  else if (n <? 32) || ((127 <=? n) && (n <=? 160)) || (n =? 173)
  then String backslash
         (String "x" (String (hex_digit (n / 16))
                        (String (hex_digit (n mod 16)) EmptyString)))
  else String c EmptyString.

Fixpoint escape_all (quote : ascii) (s : string) : string :=
  match s with
  | EmptyString => EmptyString
  | String c r => escape quote c ++ escape_all quote r
  end.

(** [repr(s)]: between double quotes when [s] holds a single quote and no
    double quote, between single quotes otherwise. *)
Definition repr (s : string) : string :=
  let quote :=
    if has single_quote s && negb (has double_quote s)
    then double_quote else single_quote in
  String quote (escape_all quote s ++ String quote EmptyString).

(** The first [n] characters of [s]. *)
Fixpoint take (n : nat) (s : string) : string :=
  match n, s with
  | S n', String c r => String c (take n' r)
  | _, _ => EmptyString
  end.

(** [int(s)]: the message of the [ValueError] shows at most 200
    characters of [repr(s)]. *)
Definition int (s : string) : result Z :=
  match parse_int s with
  | Some v => Ok v
  | None =>
      Raise (ValueError
               ("invalid literal for int() with base 10: " ++ take 200 (repr s)))
  end.

(** The text before the first character satisfying [p], and what follows
    that character when there is one. *)
Fixpoint break (p : ascii -> bool) (s : string) : string * option string :=
  match s with
  | EmptyString => (EmptyString, None)
  | String c r =>
      if p c then (EmptyString, Some r)
      else let (a, b) := break p r in (String c a, b)
  end.

End PyStr.

(** ** Binary64 floating point *)

Module Float.

(** A double: not-a-number, an infinity, or [u] units of 2^-1074 (the
    two zeros are not told apart: no operation of the module does). *)
Inductive f64 : Type :=
| NaN
| Inf (neg : bool)
| Fin (u : Z).

(** [floor (log2 (n / d))] for positive [n] and [d]. *)
Definition ilog2 (n d : Z) : Z :=
  let k := Z.log2 n - Z.log2 d in
  if n * 2 ^ Z.max 0 (- k) <? d * 2 ^ Z.max 0 k then k - 1 else k.

(** The integer nearest to [n / d], ties to even ([0 <= n], [0 < d]). *)
Definition rne (n d : Z) : Z :=
  let q := n / d in
  match 2 * (n mod d) ?= d with
  | Lt => q
  | Gt => q + 1
  | Eq => if Z.even q then q else q + 1
  end.

(** The units of the double nearest to [n / d], before overflow is
    looked at: 53 significant bits, none below the unit. *)
Definition round_units (n d : Z) : Z :=
  let N := n * 2 ^ 1074 in
  let s := Z.max 0 (ilog2 N d - 52) in
  rne N (d * 2 ^ s) * 2 ^ s.

(** 2^1024, in units. *)
Definition overflow_threshold : Z := 2 ^ 2098.

(** The double nearest to [n / d] ([0 <= n], [0 < d]). *)
Definition round (n d : Z) : f64 :=
  let u := round_units n d in
  if overflow_threshold <=? u then Inf false else Fin u.

Definition neg (x : f64) : f64 :=
  match x with
  | NaN => NaN
  | Inf b => Inf (negb b)
  | Fin u => Fin (- u)
  end.

(** The double nearest to [m * 10^e] ([0 <= m]). *)
Definition of_decimal (m e : Z) : f64 :=
  round (m * 10 ^ Z.max 0 e) (10 ^ Z.max 0 (- e)).

(** [x > y] *)
Definition gt (x y : f64) : bool :=
  match x, y with
  | NaN, _ | _, NaN => false
  | Inf true, _ => false
  | Inf false, Inf false => false
  | Inf false, _ => true
  | Fin _, Inf true => true
  | Fin _, Inf false => false
  | Fin u, Fin v => v <? u
  end.

End Float.

(** ** The built-in [float] on text *)

Module PyFloat.

Import PyStr.

(** [number ::= [digitpart] "." digitpart | digitpart ["."]]: the integer
    spelled by all the digits and the number of digits after the point. *)
Definition number (s : string) : option (Z * Z) :=
  match break (Ascii.eqb ".") s with
  | (ip, None) =>
      match digitpart 0 0 ip with
      | Some (v, _) => Some (v, 0)
      | None => None
      end
  | (EmptyString, Some fp) => digitpart 0 0 fp
  | (ip, Some EmptyString) =>
      match digitpart 0 0 ip with
      | Some (v, _) => Some (v, 0)
      | None => None
      end
  | (ip, Some fp) =>
      match digitpart 0 0 ip with
      | Some (v, _) => digitpart v 0 fp
      | None => None
      end
  end.

Definition is_e (c : ascii) : bool := Ascii.eqb c "e" || Ascii.eqb c "E".

(** [exponent ::= ("e" | "E") [sign] digitpart], after the letter. *)
Definition exponent (s : string) : option Z :=
  let (neg, body) := sign s in
  match digitpart 0 0 body with
  | Some (v, _) => Some (if neg then - v else v)
  | None => None
  end.

(** [floatnumber ::= number [exponent]] *)
Definition floatnumber (s : string) : option Float.f64 :=
  let (mant, ex) := break is_e s in
  match number mant, ex with
  | None, _ => None
  | Some (m, k), None => Some (Float.of_decimal m (- k))
  | Some (m, k), Some ep =>
      match exponent ep with
      | Some e => Some (Float.of_decimal m (e - k))
      | None => None
      end
  end.

(** [float(s)]: [None] stands for [ValueError]. *)
Definition parse_float (s : string) : option Float.f64 :=
  let (neg, body) := sign (strip_by is_cspace s) in
  let word := lowercase body in
  let apply (x : Float.f64) := if neg then Float.neg x else x in
  if String.eqb word "inf" || String.eqb word "infinity"
  then Some (apply (Float.Inf false))
  else if String.eqb word "nan" then Some Float.NaN
  else match floatnumber body with
       | Some x => Some (apply x)
       | None => None
       end.

Definition float (s : string) : result Float.f64 :=
  match parse_float s with
  | Some x => Ok x
  | None => Raise (ValueError ("could not convert string to float: " ++ repr s))
  end.

End PyFloat.

(** ** Result records and the host *)

(** The dictionary every check builds: [passed] is [True], [False] or
    [None]. *)
Record CheckResult : Type := {
  test_name : string;
  suggestions : list string;
  passed : option bool
}.

(** What [troubleshoot] returns: [None], the text of an exception, or the
    list [results], whose elements are dictionaries or [None]. *)
Inductive Report : Type :=
| NotApplicable
| ErrorString (s : string)
| Results (l : list (option CheckResult)).

(** The facts of the machine the probes read.  A probe that can fail
    carries its exception. *)
Record Host : Type := {
  (** [os.uname()] *)
  uname_sysname : string;
  uname_release : string;
  uname_machine : string;
  (** [shutil.which(name)] *)
  which : string -> option string;
  (** [os.environ[key]] *)
  environ : string -> option string;
  (** [os.getuid()] *)
  getuid : Z;
  (** [os.path.exists(path)] *)
  path_exists : string -> bool;
  (** [os.path.expanduser("~")] *)
  home : string;
  (** [glob.glob(pattern)] *)
  glob : string -> list string;
  (** [open(path)] followed by [f.readline()] *)
  readline : string -> result string;
  (** [open(path)] followed by [f.readlines()] *)
  readlines : string -> result (list string);
  (** [subprocess.Popen(argv, ...)]: the decoded output of
      [communicate()[0]] and [returncode] *)
  popen : list string -> result (string * Z);
  (** [requests.get(url)]: [status_code] and [text] *)
  requests_get : string -> result (Z * string);
  (** [rclient.__version__] when [from openrazer import client] succeeded *)
  rclient_version : option string
}.

Definition PYTHON_LIB_PRESENT (h : Host) : bool :=
  match rclient_version h with
  | Some _ => true
  | None => false
  end.

(** [os.path.join(a, b)] *)
Definition path_join (a b : string) : string :=
  if String.prefix "/" b then b
  else if String.eqb a EmptyString || String.eqb (PyStr.drop (String.length a - 1) a) "/"
       then a ++ b
       else a ++ "/" ++ b.

(** [l.append(x)] *)
Definition append {A : Type} (l : list A) (x : A) : list A := (l ++ [x])%list.

(** The functions [troubleshoot] calls. *)
Inductive check : Type :=
| DaemonInstalled
| PylibInstalled
| DaemonRunning
| DkmsChecks
| SecureBoot
| PlugdevGroup
| SysfsPermissions
| UpToDate.

(** ** The version comparison *)

(** The local function [_is_version_newer_then] of
    [_is_openrazer_up_to_date]. *)
Definition _is_version_newer_then (verA verB : string) : result bool :=
  let verA := PyStr.split "." verA in
  let verB := PyStr.split "." verB in
  let is_new := false in
  a0 <- PyStr.index verA 0 ;;
  majorA <- PyStr.int a0 ;;
  b0 <- PyStr.index verB 0 ;;
  majorB <- PyStr.int b0 ;;
  let is_new := if majorA >? majorB then true else is_new in
  a1 <- PyStr.index verA 1 ;;
  a2 <- PyStr.index verA 2 ;;
  restA <- PyFloat.float (a1 ++ "." ++ a2) ;;
  b1 <- PyStr.index verB 1 ;;
  b2 <- PyStr.index verB 2 ;;
  restB <- PyFloat.float (b1 ++ "." ++ b2) ;;
  let is_new := if Float.gt restA restB then true else is_new in
  Ok is_new.

(** ** The checks *)

Section Troubleshooter.

(** The translation function every check receives as [_]. *)
Variable tr : string -> string.

(** [common.get_exception_as_string], which lives outside this module. *)
Variable get_exception_as_string : exn -> string.

Definition _is_daemon_installed (h : Host) : CheckResult :=
  {| test_name := tr "Daemon is installed";
     suggestions :=
       [tr "Install the 'openrazer-meta' package for your distribution."];
     passed := Some (match which h "openrazer-daemon" with
                     | Some _ => true
                     | None => false
                     end) |}.

(** The path [_is_daemon_running] looks at: [XDG_RUNTIME_DIR] when the
    variable is set, the directory of the user id when the lookup raises
    [KeyError]. *)
Definition daemon_pid_file (h : Host) : string :=
  match environ h "XDG_RUNTIME_DIR" with
  | Some dir => path_join dir "openrazer-daemon.pid"
  | None =>
      path_join (path_join "/run/user/" (PyStr.str_of_int (getuid h)))
                "openrazer-daemon.pid"
  end.

Definition _is_daemon_running (h : Host) : result CheckResult :=
  let daemon_pid_file := daemon_pid_file h in
  let daemon_running := false in
  daemon_running <-
    (if path_exists h daemon_pid_file then
       line <- readline h daemon_pid_file ;;
       daemon_pid <- PyStr.int line ;;
       if path_exists h ("/proc/" ++ PyStr.str_of_int daemon_pid)
       then Ok true
       else Ok daemon_running
     else Ok daemon_running) ;;
  Ok {| test_name := tr "Daemon is running";
        suggestions :=
          [tr "Start the daemon from the terminal. Run this command and look for errors:";
           "$ openrazer-daemon -Fv"];
        passed := Some daemon_running |}.

Definition _is_pylib_installed (h : Host) : CheckResult :=
  {| test_name := tr "Python library is installed";
     suggestions :=
       [tr "Install the 'python3-openrazer' package for your distribution.";
        tr "Check the PYTHONPATH environment variable is correct."];
     passed := Some (PYTHON_LIB_PRESENT h) |}.

(** Reading a local variable: [UnboundLocalError] when no assignment to
    it was executed. *)
Definition local (name : string) (v : option string) : result string :=
  match v with
  | Some s => Ok s
  | None => Raise (UnboundLocalError name)
  end.

Definition _run_dkms_checks (h : Host) : result (list CheckResult) :=
  let '(dkms_version, dkms_installed_src, dkms_installed_built) :=
    match rclient_version h with
    | Some version =>
        let expected_dkms_src := "/var/lib/dkms/openrazer-driver/" ++ version in
        let expected_dkms_build :=
          "/var/lib/dkms/openrazer-driver/kernel-" ++ uname_release h
            ++ "-" ++ uname_machine h in
        (Some version,
         Some (path_exists h expected_dkms_src),
         Some (path_exists h expected_dkms_build))
    | None => (None, None, None)
    end in
  let subresults := [] in
  let subresults := append subresults
    {| test_name := tr "DKMS sources are installed";
       suggestions :=
         [tr "Install the 'openrazer-driver-dkms' package for your distribution."];
       passed := dkms_installed_src |} in
  version <- local "dkms_version" dkms_version ;;
  let subresults := append subresults
    {| test_name := tr "DKMS module has been built for this kernel version";
       suggestions :=
         [tr "Ensure you have the correct Linux kernel headers package installed for your distribution.";
          tr "Your distro's package system might not have rebuilt the DKMS module (this can happen with kernel or OpenRazer updates). Try running:";
          PyStr.replace "x.x.x" version
            "$ sudo dkms install -m openrazer-driver/x.x.x"];
       passed := dkms_installed_built |} in
  modprobe <- popen h ["modprobe"; "-n"; "razerkbd"] ;;
  let code := snd modprobe in
  let subresults := append subresults
    {| test_name := tr "DKMS module can be probed";
       suggestions := [tr "For full error details, run:"; "$ sudo modprobe razerkbd"];
       passed := Some (code =? 0) |} in
  lsmod <- popen h ["lsmod"] ;;
  let output := fst lsmod in
  let subresults := append subresults
    {| test_name := tr "DKMS module is currently loaded";
       suggestions := [tr "For full error details, run:"; "$ sudo modprobe razerkbd"];
       passed := Some (PyStr.contains "razer" output) |} in
  Ok subresults.

Definition _is_secure_boot_enabled (h : Host) : result CheckResult :=
  let sb_sysfile := glob h "/sys/firmware/efi/efivars/SecureBoot*" in
  let sb_reason := tr "Secure Boot prevents the driver from loading, as OpenRazer's kernel modules built by DKMS are usually unsigned." in
  match sb_sysfile with
  | file :: _ =>
      secureboot <- popen h ["od"; "--address-radix=n"; "--format=u1"; file] ;;
      word <- PyStr.index_last (PyStr.split " " (fst secureboot)) ;;
      let status := PyStr.strip word in
      status <- PyStr.int status ;;
      Ok {| test_name := tr "Check Secure Boot (EFI) status";
            suggestions :=
              [tr "Secure boot is enabled. Turn it off in the system's EFI settings or sign the modules yourself.";
               sb_reason];
            passed := Some (status =? 0) |}
  | [] =>
      Ok {| test_name := tr "Check Secure Boot (EFI) status";
            suggestions :=
              [tr "Unable to automatically check. If it's enabled, turn it off in the system's EFI settings or sign the modules yourself.";
               sb_reason];
            passed := None |}
  end.

Definition _is_user_in_plugdev_group (h : Host) : result CheckResult :=
  groups <- popen h ["groups"] ;;
  let groups := fst groups in
  Ok {| test_name := tr "User account has been added to the 'plugdev' group";
        suggestions :=
          [tr "Run this command, log out, then log back in to the computer:";
           "$ sudo gpasswd -a $USER plugdev";
           tr "If you've recently installed, you may need to restart the computer."];
        passed := Some (PyStr.contains "plugdev" groups) |}.

Definition log_path (h : Host) : string :=
  path_join (home h) ".local/share/openrazer/logs/razer.log".

(** Falls off its end, returning [None], when the log is not there. *)
Definition _is_sysfs_plugdev_permissions_ok (h : Host)
  : result (option CheckResult) :=
  let log_path := log_path h in
  if path_exists h log_path then
    log <- readlines h log_path ;;
    Ok (Some
      {| test_name := tr "Check OpenRazer log for plugdev permission errors";
         suggestions :=
           [tr "Restarting (or replugging) usually fixes the problem.";
            tr "To reset this error, clear the log:" ++ " " ++ log_path];
         passed := Some (negb (PyStr.contains "Could not access /sys/"
                                              (PyStr.join log))) |})
  else Ok None.

Definition remote_get_url : string :=
  "https://openrazer.github.io/api/latest_version.txt".

(** The truth value of an [Optional[str]]. *)
Definition truthy (v : option string) : bool :=
  match v with
  | Some s => negb (String.eqb s EmptyString)
  | None => false
  end.

(** Falls off its end, returning [None], when the library is missing.
    The [print] of the handler is not modelled. *)
Definition _is_openrazer_up_to_date (h : Host)
  : result (option CheckResult) :=
  match rclient_version h with
  | Some local_version =>
      let remote_version :=
        match requests_get h remote_get_url with
        | Ok (status_code, text) =>
            if (status_code =? 200)
               && (Nat.eqb (List.length (PyStr.split "." (PyStr.strip text))) 3)
            then Some (PyStr.strip text)
            else None
        | Raise _ => None
        end in
      if truthy remote_version then
        let remote_version := match remote_version with
                              | Some v => v
                              | None => EmptyString
                              end in
        is_new <- _is_version_newer_then remote_version local_version ;;
        Ok (Some
          {| test_name := tr "OpenRazer is the latest version";
             suggestions :=
               [tr "There is a new version of OpenRazer available.";
                tr "New versions add support for more devices and address device-specific issues.";
                PyStr.replace "0.0.0" local_version (tr "Your version: 0.0.0");
                PyStr.replace "0.0.0" remote_version (tr "Latest version: 0.0.0")];
             passed := Some (negb is_new) |})
      else
        Ok (Some
          {| test_name := tr "OpenRazer is the latest version";
             suggestions :=
               [tr "Unable to retrieve this data from OpenRazer's website.";
                tr "Check the OpenRazer website to confirm your device is listed as supported.";
                tr "If you're checking the GitHub repository, check the 'stable' branch."];
             passed := None |})
  | None => Ok None
  end.

(** ** The runner *)

(** The state of a run of [troubleshoot]: the check functions called so
    far, in order, and the local list [results]. *)
Record Frame : Type := {
  calls : list check;
  results : list (option CheckResult)
}.

(** A statement of the guarded block: the frame it leaves and the
    exception that escaped it, if one did. *)
Definition stmt : Type := Frame -> Frame * option exn.

(** [store(results, f(_))]: the call is recorded, and [results] is
    updated when [f] returns. *)
Definition invoke {A : Type} (c : check) (r : result A)
    (store : list (option CheckResult) -> A -> list (option CheckResult))
  : stmt :=
  fun f =>
    let called := append (calls f) c in
    match r with
    | Ok a => ({| calls := called; results := store (results f) a |}, None)
    | Raise e => ({| calls := called; results := results f |}, Some e)
    end.

Definition seq (s1 s2 : stmt) : stmt :=
  fun f =>
    match s1 f with
    | (f', None) => s2 f'
    | (f', Some e) => (f', Some e)
    end.

Definition skip : stmt := fun f => (f, None).

Notation "s1 >> s2" := (seq s1 s2) (at level 90, right associativity).

(** [results.append(x)] for a dictionary, for a dictionary-or-[None],
    and [results += l]. *)
Definition append_dict (l : list (option CheckResult)) (x : CheckResult) :=
  append l (Some x).
Definition append_value (l : list (option CheckResult)) (x : option CheckResult) :=
  append l x.
Definition extend (l : list (option CheckResult)) (xs : list CheckResult) :=
  (l ++ map Some xs)%list.

(** The statements between [try:] and [except]. *)
Definition checks (h : Host) : stmt :=
  invoke DaemonInstalled (Ok (_is_daemon_installed h)) append_dict >>
  invoke PylibInstalled (Ok (_is_pylib_installed h)) append_dict >>
  invoke DaemonRunning (_is_daemon_running h) append_dict >>
  invoke DkmsChecks (_run_dkms_checks h) extend >>
  (if path_exists h "/sys/firmware/efi"
   then invoke SecureBoot (_is_secure_boot_enabled h) append_dict
   else skip) >>
  invoke PlugdevGroup (_is_user_in_plugdev_group h) append_dict >>
  invoke SysfsPermissions (_is_sysfs_plugdev_permissions_ok h) append_value >>
  invoke UpToDate (_is_openrazer_up_to_date h) append_value.

(** A run: the frame when [troubleshoot] returns and the value it
    returns. *)
Record Run : Type := {
  final : Frame;
  returned : Report
}.

Definition troubleshoot (h : Host) : Run :=
  let start := {| calls := []; results := [] |} in
  if negb (String.eqb (uname_sysname h) "Linux")
  then {| final := start; returned := NotApplicable |}
  else
    let (frame, fault) := checks h start in
    match fault with
    | Some e =>
        let exception := get_exception_as_string e in
        {| final := frame; returned := ErrorString exception |}
    | None => {| final := frame; returned := Results (results frame) |}
    end.

(** The exception a check function raises on [h], if it raises. *)
Definition fault_of {A : Type} (r : result A) : option exn :=
  match r with
  | Ok _ => None
  | Raise e => Some e
  end.

Definition fault (h : Host) (c : check) : option exn :=
  match c with
  | DaemonInstalled => None
  | PylibInstalled => None
  | DaemonRunning => fault_of (_is_daemon_running h)
  | DkmsChecks => fault_of (_run_dkms_checks h)
  | SecureBoot => fault_of (_is_secure_boot_enabled h)
  | PlugdevGroup => fault_of (_is_user_in_plugdev_group h)
  | SysfsPermissions => fault_of (_is_sysfs_plugdev_permissions_ok h)
  | UpToDate => fault_of (_is_openrazer_up_to_date h)
  end.

End Troubleshooter.

(** ** Sample hosts *)

Module Sample.

(** The line feed. *)
Definition nl : string := String (ascii_of_nat 10) EmptyString.

(** A Linux machine on which every probe answers: the library is
    version 3.0.1, the daemon runs as process 4242, the firmware is EFI
    with Secure Boot off, and the log is clean. *)
Definition linux : Host :=
  {| uname_sysname := "Linux";
     uname_release := "6.1.0-13-amd64";
     uname_machine := "x86_64";
     which := fun name =>
       if String.eqb name "openrazer-daemon"
       then Some "/usr/bin/openrazer-daemon" else None;
     environ := fun key =>
       if String.eqb key "XDG_RUNTIME_DIR" then Some "/run/user/1000" else None;
     getuid := 1000;
     path_exists := fun p =>
       existsb (String.eqb p)
         ["/run/user/1000/openrazer-daemon.pid"; "/proc/4242";
          "/var/lib/dkms/openrazer-driver/3.0.1";
          "/var/lib/dkms/openrazer-driver/kernel-6.1.0-13-amd64-x86_64";
          "/sys/firmware/efi";
          "/home/user/.local/share/openrazer/logs/razer.log"];
     home := "/home/user";
     glob := fun _ =>
       ["/sys/firmware/efi/efivars/SecureBoot-8be4df61-93ca-11d2-aa0d-00e098032b8c"];
     readline := fun _ => Ok ("4242" ++ nl);
     readlines := fun _ => Ok ["daemon started" ++ nl];
     popen := fun argv =>
       match argv with
       | "od" :: _ => Ok ("   6   0   0   0   0" ++ nl, 0)
       | "groups" :: _ => Ok ("user plugdev" ++ nl, 0)
       | "lsmod" :: _ => Ok ("razerkbd 45056 0" ++ nl, 0)
       | _ => Ok (EmptyString, 0)
       end;
     requests_get := fun _ => Ok (200, "3.0.1" ++ nl);
     rclient_version := Some "3.0.1" |}.

Definition with_exists (f : string -> bool) (h : Host) : Host :=
  {| uname_sysname := uname_sysname h;
     uname_release := uname_release h;
     uname_machine := uname_machine h;
     which := which h;
     environ := environ h;
     getuid := getuid h;
     path_exists := f;
     home := home h;
     glob := glob h;
     readline := readline h;
     readlines := readlines h;
     popen := popen h;
     requests_get := requests_get h;
     rclient_version := rclient_version h |}.

(** The same machine with one path removed. *)
Definition without (p : string) (h : Host) : Host :=
  with_exists (fun q => negb (String.eqb q p) && path_exists h q) h.

(** The same machine without the client library. *)
Definition without_library (h : Host) : Host :=
  {| uname_sysname := uname_sysname h;
     uname_release := uname_release h;
     uname_machine := uname_machine h;
     which := which h;
     environ := environ h;
     getuid := getuid h;
     path_exists := path_exists h;
     home := home h;
     glob := glob h;
     readline := readline h;
     readlines := readlines h;
     popen := popen h;
     requests_get := requests_get h;
     rclient_version := None |}.


(** The same machine with another first line in every file. *)
Definition with_readline (f : string -> result string) (h : Host) : Host :=
  {| uname_sysname := uname_sysname h;
     uname_release := uname_release h;
     uname_machine := uname_machine h;
     which := which h;
     environ := environ h;
     getuid := getuid h;
     path_exists := path_exists h;
     home := home h;
     glob := glob h;
     readline := f;
     readlines := readlines h;
     popen := popen h;
     requests_get := requests_get h;
     rclient_version := rclient_version h |}.

(** The same machine with another answer from the network. *)
Definition with_requests_get (f : string -> result (Z * string)) (h : Host) : Host :=
  {| uname_sysname := uname_sysname h;
     uname_release := uname_release h;
     uname_machine := uname_machine h;
     which := which h;
     environ := environ h;
     getuid := getuid h;
     path_exists := path_exists h;
     home := home h;
     glob := glob h;
     readline := readline h;
     readlines := readlines h;
     popen := popen h;
     requests_get := f;
     rclient_version := rclient_version h |}.

(** The same machine with another answer from [glob]. *)
Definition with_glob (f : string -> list string) (h : Host) : Host :=
  {| uname_sysname := uname_sysname h;
     uname_release := uname_release h;
     uname_machine := uname_machine h;
     which := which h;
     environ := environ h;
     getuid := getuid h;
     path_exists := path_exists h;
     home := home h;
     glob := f;
     readline := readline h;
     readlines := readlines h;
     popen := popen h;
     requests_get := requests_get h;
     rclient_version := rclient_version h |}.

(** A formatter of exceptions to run the examples with. *)
Definition show (e : exn) : string :=
  match e with
  | KeyError k => "KeyError: " ++ k
  | ValueError m => "ValueError: " ++ m
  | IndexError => "IndexError: list index out of range"
  | UnboundLocalError v => "UnboundLocalError: " ++ v
  | OSError m => "OSError: " ++ m
  | RequestException m => "RequestException: " ++ m
  end.

End Sample.

(** ** Vocabulary of the properties *)

Module Text.

(** Every character of [s] satisfies [p]. *)
Fixpoint all (p : ascii -> bool) (s : string) : bool :=
  match s with
  | EmptyString => true
  | String c r => p c && all p r
  end.

(** No character of [s] satisfies [p]. *)
Definition free (p : ascii -> bool) (s : string) : bool :=
  all (fun c => negb (p c)) s.

(** The number of occurrences of the character [c] in [s]. *)
Fixpoint count (c : ascii) (s : string) : nat :=
  match s with
  | EmptyString => O
  | String x r => if Ascii.eqb x c then S (count c r) else count c r
  end.

(** The occurrences of [sub] in [s]. *)
Definition occurs (sub s : string) : Prop :=
  exists before after, s = before ++ sub ++ after.

End Text.

Module Version.

(** A component of a well-formed version: one decimal digit or more, and
    no more than the 4300 that [int] converts in every Python 3. *)
Definition digits (s : string) : bool :=
  negb (String.eqb s EmptyString) && Text.all PyStr.is_digit s
  && (String.length s <=? 4300)%nat.

(** The integer a digit string spells after the digits that spelled [acc]. *)
Fixpoint value_from (acc : Z) (s : string) : Z :=
  match s with
  | EmptyString => acc
  | String c r => value_from (10 * acc + PyStr.digit_val c) r
  end.

Definition value (s : string) : Z := value_from 0 s.

Definition len (s : string) : Z := Z.of_nat (String.length s).

(** The text [major.minor.patch]. *)
Definition version (major minor patch : string) : string :=
  major ++ "." ++ minor ++ "." ++ patch.

(** The decimal number written [minor.patch]. *)
Definition decimal (minor patch : string) : Q :=
  Qmake (value minor * 10 ^ len patch + value patch) (Z.to_pos (10 ^ len patch)).

(** The double nearest to a non-negative rational. *)
Definition nearest (q : Q) : Float.f64 :=
  Float.round (Qnum q) (Zpos (Qden q)).

(** What the two tests of [_is_version_newer_then] amount to on
    well-formed versions. *)
Definition newer (major minor patch major' minor' patch' : string) : bool :=
  (value major >? value major')
  || Float.gt (nearest (decimal minor patch)) (nearest (decimal minor' patch')).

End Version.

Module Binary.

(** The number of low bits [Float.round_units] drops from [n / d]. *)
Definition shift (n d : Z) : Z := Z.max 0 (Float.ilog2 n d - 52).

End Binary.

(** More machines. *)

Module Scenario.

Import Sample.

Definition with_version (v : option string) (h : Host) : Host :=
  {| uname_sysname := uname_sysname h;
     uname_release := uname_release h;
     uname_machine := uname_machine h;
     which := which h;
     environ := environ h;
     getuid := getuid h;
     path_exists := path_exists h;
     home := home h;
     glob := glob h;
     readline := readline h;
     readlines := readlines h;
     popen := popen h;
     requests_get := requests_get h;
     rclient_version := v |}.

Definition with_popen (f : list string -> result (string * Z)) (h : Host) : Host :=
  {| uname_sysname := uname_sysname h;
     uname_release := uname_release h;
     uname_machine := uname_machine h;
     which := which h;
     environ := environ h;
     getuid := getuid h;
     path_exists := path_exists h;
     home := home h;
     glob := glob h;
     readline := readline h;
     readlines := readlines h;
     popen := f;
     requests_get := requests_get h;
     rclient_version := rclient_version h |}.

Definition with_readlines (f : string -> result (list string)) (h : Host) : Host :=
  {| uname_sysname := uname_sysname h;
     uname_release := uname_release h;
     uname_machine := uname_machine h;
     which := which h;
     environ := environ h;
     getuid := getuid h;
     path_exists := path_exists h;
     home := home h;
     glob := glob h;
     readline := readline h;
     readlines := f;
     popen := popen h;
     requests_get := requests_get h;
     rclient_version := rclient_version h |}.

Definition with_environ (f : string -> option string) (h : Host) : Host :=
  {| uname_sysname := uname_sysname h;
     uname_release := uname_release h;
     uname_machine := uname_machine h;
     which := which h;
     environ := f;
     getuid := getuid h;
     path_exists := path_exists h;
     home := home h;
     glob := glob h;
     readline := readline h;
     readlines := readlines h;
     popen := popen h;
     requests_get := requests_get h;
     rclient_version := rclient_version h |}.

(** The translation that leaves every text as it is. *)
Definition untranslated (s : string) : string := s.

(** The server announces 2.9.9 to a machine that has 3.0.0. *)
Definition downgrade : Host :=
  with_requests_get (fun _ => Ok (200, "2.9.9" ++ nl))
    (with_version (Some "3.0.0") linux).


(** The server is in trouble. *)
Definition server_error : Host :=
  with_requests_get (fun _ => Ok (503, "3.0.1" ++ nl)) linux.

(** The dump of the Secure Boot variable cannot be read, and comes out
    with Secure Boot on. *)
Definition empty_dump : Host :=
  with_popen (fun argv =>
    match argv with
    | "od" :: _ => Ok (EmptyString, 1)
    | _ => popen linux argv
    end) linux.

Definition secure_boot_on : Host :=
  with_popen (fun argv =>
    match argv with
    | "od" :: _ => Ok ("   6   0   0   0   1" ++ nl, 0)
    | _ => popen linux argv
    end) linux.

(** The user is in a group whose name merely contains the text. *)
Definition lookalike_group : Host :=
  with_popen (fun argv =>
    match argv with
    | "groups" :: _ => Ok ("user notplugdev" ++ nl, 0)
    | _ => popen linux argv
    end) linux.

(** The log holds a permission error. *)
Definition log_with_error : Host :=
  with_readlines (fun _ =>
    Ok ["daemon started" ++ nl;
        "Could not access /sys/bus/hid/drivers/razerkbd" ++ nl]) linux.

(** No runtime directory in the environment. *)
Definition no_runtime_dir : Host := with_environ (fun _ => None) linux.

(** The tool that probes modules is not installed. *)
Definition no_modprobe : Host :=
  with_popen (fun argv =>
    match argv with
    | "modprobe" :: _ => Raise (OSError "No such file or directory: 'modprobe'")
    | _ => popen linux argv
    end) linux.

End Scenario.

(** * Properties *)

(** ** The shape of a run *)

Section Runs.

Variable tr : string -> string.
Variable fmt : exn -> string.

Lemma linux_eqb (h : Host) :
  uname_sysname h = "Linux" ->
  negb (String.eqb (uname_sysname h) "Linux") = false.
Proof. intros ->. reflexivity. Qed.

Lemma dkms_checks_length (h : Host) (l : list CheckResult) :
  _run_dkms_checks tr h = Ok l -> List.length l = 4%nat.
Proof.
  unfold _run_dkms_checks.
  destruct (rclient_version h); cbn; [|discriminate].
  destruct (popen h ["modprobe"; "-n"; "razerkbd"]); cbn; [|discriminate].
  destruct (popen h ["lsmod"]); cbn; [|discriminate].
  intros [= <-]. reflexivity.
Qed.

(** The elements the optional Secure Boot statement adds. *)
Definition secure_boot_part (h : Host) (sb : CheckResult)
  : list (option CheckResult) :=
  if path_exists h "/sys/firmware/efi" then [Some sb] else [].

Definition secure_boot_call (h : Host) : list check :=
  if path_exists h "/sys/firmware/efi" then [SecureBoot] else [].

(** A run that returns a list called every check function, and the list
    holds what they returned, in the order of the calls. *)
Lemma results_shape (h : Host) (l : list (option CheckResult)) :
  returned (troubleshoot tr fmt h) = Results l ->
  exists running dkms plugdev sysfs uptodate,
    _is_daemon_running tr h = Ok running /\
    _run_dkms_checks tr h = Ok dkms /\
    _is_user_in_plugdev_group tr h = Ok plugdev /\
    _is_sysfs_plugdev_permissions_ok tr h = Ok sysfs /\
    _is_openrazer_up_to_date tr h = Ok uptodate /\
    (path_exists h "/sys/firmware/efi" = true ->
     exists sb, _is_secure_boot_enabled tr h = Ok sb /\
       l = ([Some (_is_daemon_installed tr h); Some (_is_pylib_installed tr h);
             Some running] ++ map Some dkms ++ [Some sb]
            ++ [Some plugdev; sysfs; uptodate])%list) /\
    (path_exists h "/sys/firmware/efi" = false ->
       l = ([Some (_is_daemon_installed tr h); Some (_is_pylib_installed tr h);
             Some running] ++ map Some dkms
            ++ [Some plugdev; sysfs; uptodate])%list) /\
    calls (final (troubleshoot tr fmt h)) =
      ([DaemonInstalled; PylibInstalled; DaemonRunning; DkmsChecks]
       ++ secure_boot_call h ++ [PlugdevGroup; SysfsPermissions; UpToDate])%list.
Proof.
  unfold troubleshoot, secure_boot_call.
  destruct (negb (String.eqb (uname_sysname h) "Linux")); [discriminate|].
  unfold checks, seq, invoke, skip; cbn.
  destruct (_is_daemon_running tr h) as [running|]; cbn; [|discriminate].
  destruct (_run_dkms_checks tr h) as [dkms|]; cbn; [|discriminate].
  destruct (path_exists h "/sys/firmware/efi"); cbn.
  - destruct (_is_secure_boot_enabled tr h) as [sb|]; cbn; [|discriminate].
    destruct (_is_user_in_plugdev_group tr h) as [plugdev|]; cbn; [|discriminate].
    destruct (_is_sysfs_plugdev_permissions_ok tr h) as [sysfs|]; cbn; [|discriminate].
    destruct (_is_openrazer_up_to_date tr h) as [uptodate|]; cbn; [|discriminate].
    intros [= <-].
    exists running, dkms, plugdev, sysfs, uptodate.
    repeat split; try discriminate.
    intros _. exists sb. split; [reflexivity|].
    unfold append_value, append_dict, extend, append; cbn.
    repeat (rewrite <- ?app_assoc; cbn). reflexivity.
  - destruct (_is_user_in_plugdev_group tr h) as [plugdev|]; cbn; [|discriminate].
    destruct (_is_sysfs_plugdev_permissions_ok tr h) as [sysfs|]; cbn; [|discriminate].
    destruct (_is_openrazer_up_to_date tr h) as [uptodate|]; cbn; [|discriminate].
    intros [= <-].
    exists running, dkms, plugdev, sysfs, uptodate.
    repeat split; try discriminate.
    intros _.
    unfold append_value, append_dict, extend, append; cbn.
    repeat (rewrite <- ?app_assoc; cbn). reflexivity.
Qed.

(** The length of a returned list depends on the firmware path alone. *)
Lemma results_length (h : Host) (l : list (option CheckResult)) :
  returned (troubleshoot tr fmt h) = Results l ->
  List.length l =
    if path_exists h "/sys/firmware/efi" then 11%nat else 10%nat.
Proof.
  intros H.
  destruct (results_shape h l H)
    as (running & dkms & plugdev & sysfs & uptodate
        & _ & Hd & _ & _ & _ & Hefi & Hno & _).
  apply dkms_checks_length in Hd.
  destruct (path_exists h "/sys/firmware/efi").
  - destruct (Hefi eq_refl) as (sb & _ & ->).
    rewrite !length_app, length_map, Hd. reflexivity.
  - rewrite (Hno eq_refl).
    rewrite !length_app, length_map, Hd. reflexivity.
Qed.

End Runs.

(** ** The runner and the checks *)

(** Among the calls recorded so far, the one that raised is the last:
    every earlier one returned. *)
Ltac blame :=
  let Hin := fresh "Hin" in
  let Hf := fresh "Hf" in
  intros Hin Hf;
  repeat (destruct Hin as [<-|Hin];
          [ cbn in Hf;
            try match type of Hf with
                | fault_of ?t = _ =>
                    match goal with E : t = _ |- _ => rewrite E in Hf end
                end;
            first [ discriminate | injection Hf as <-; reflexivity ]
          | ]);
  destruct Hin.

Section Claims.

Variable tr : string -> string.
Variable fmt : exn -> string.


(** C9: when the PID file of the daemon does not exist,
    [_is_daemon_running] returns a result (it does not raise) whose
    [passed] is [False]. *)
Theorem missing_pid_file_not_running (h : Host) :
  path_exists h (daemon_pid_file h) = false ->
  exists r, _is_daemon_running tr h = Ok r /\ passed r = Some false.
Proof.
  intros Hpid. unfold _is_daemon_running. rewrite Hpid. cbn.
  eexists. split; reflexivity.
Qed.


(** C6: on Linux, when a check function that [troubleshoot] called
    raised an exception, [troubleshoot] returns the formatted text of
    that exception, a single string: the entries appended to [results]
    before the fault are not part of the returned value. *)
Theorem fault_returns_error_string (h : Host) (c : check) (e : exn) :
  uname_sysname h = "Linux" ->
  In c (calls (final (troubleshoot tr fmt h))) ->
  fault tr h c = Some e ->
  returned (troubleshoot tr fmt h) = ErrorString (fmt e).
Proof.
  intros Hsys. unfold troubleshoot. rewrite (linux_eqb h Hsys).
  unfold checks, seq, invoke, skip; cbn.
  destruct (_is_daemon_running tr h) eqn:E1; cbn; [|blame].
  destruct (_run_dkms_checks tr h) eqn:E2; cbn; [|blame].
  destruct (path_exists h "/sys/firmware/efi"); cbn.
  - destruct (_is_secure_boot_enabled tr h) eqn:E3; cbn; [|blame].
    destruct (_is_user_in_plugdev_group tr h) eqn:E4; cbn; [|blame].
    destruct (_is_sysfs_plugdev_permissions_ok tr h) eqn:E5; cbn; [|blame].
    destruct (_is_openrazer_up_to_date tr h) eqn:E6; cbn; blame.
  - destruct (_is_user_in_plugdev_group tr h) eqn:E4; cbn; [|blame].
    destruct (_is_sysfs_plugdev_permissions_ok tr h) eqn:E5; cbn; [|blame].
    destruct (_is_openrazer_up_to_date tr h) eqn:E6; cbn; blame.
Qed.

(** C4: without the client library the local variable [dkms_version]
    of [_run_dkms_checks] is never assigned, and reading it for the
    second sub-result raises [UnboundLocalError]: no sub-result is
    returned, and on Linux the run ends with the text of that
    exception. *)
Theorem dkms_checks_without_library_raise (h : Host) :
  rclient_version h = None ->
  _run_dkms_checks tr h = Raise (UnboundLocalError "dkms_version") /\
  (uname_sysname h = "Linux" ->
   forall running, _is_daemon_running tr h = Ok running ->
     returned (troubleshoot tr fmt h) =
       ErrorString (fmt (UnboundLocalError "dkms_version"))).
Proof.
  intros Hlib.
  assert (Hd : _run_dkms_checks tr h = Raise (UnboundLocalError "dkms_version")).
  { unfold _run_dkms_checks. rewrite Hlib. reflexivity. }
  split; [exact Hd|].
  intros Hsys running Hrun.
  unfold troubleshoot. rewrite (linux_eqb h Hsys).
  unfold checks, seq, invoke; cbn. rewrite Hrun; cbn. rewrite Hd. reflexivity.
Qed.

(** C3 (amended): when the log file does not exist,
    [_is_sysfs_plugdev_permissions_ok] returns [None] without raising,
    and [troubleshoot] appends that [None]: a returned list has it as
    its last element but one, and has the length it has on any host
    with the same firmware path, the log being there or not. *)
Theorem absent_log_appends_none (h : Host) :
  path_exists h (log_path h) = false ->
  _is_sysfs_plugdev_permissions_ok tr h = Ok None /\
  forall l, returned (troubleshoot tr fmt h) = Results l ->
    nth_error l (List.length l - 2) = Some None /\
    forall h' l',
      returned (troubleshoot tr fmt h') = Results l' ->
      path_exists h' "/sys/firmware/efi" = path_exists h "/sys/firmware/efi" ->
      List.length l' = List.length l.
Proof.
  intros Hlog.
  assert (Hs : _is_sysfs_plugdev_permissions_ok tr h = Ok None).
  { unfold _is_sysfs_plugdev_permissions_ok. rewrite Hlog. reflexivity. }
  split; [exact Hs|].
  intros l Hl. split.
  - pose proof (results_length tr fmt h l Hl) as Hlen.
    destruct (results_shape tr fmt h l Hl)
      as (running & dkms & plugdev & sysfs & uptodate
          & _ & Hd & _ & Hs' & _ & Hefi & Hno & _).
    rewrite Hs in Hs'. injection Hs' as <-.
    apply (dkms_checks_length tr) in Hd.
    destruct dkms as [|d1 [|d2 [|d3 [|d4 [|]]]]]; try discriminate.
    destruct (path_exists h "/sys/firmware/efi").
    + destruct (Hefi eq_refl) as (sb & _ & ->). reflexivity.
    + rewrite (Hno eq_refl). reflexivity.
  - intros h' l' Hl' Hsame.
    rewrite (results_length tr fmt h l Hl), (results_length tr fmt h' l' Hl').
    rewrite Hsame. reflexivity.
Qed.

(** C5 (amended): with the library present, [_is_openrazer_up_to_date]
    returns a result whose [passed] is [None] when the request raises,
    and when the stripped text of the answer does not have exactly three
    components between dots; without the library it returns [None], no
    result at all.  It raises in none of the three cases. *)
Theorem up_to_date_unknown_outcomes (h : Host) :
  (forall version e,
      rclient_version h = Some version ->
      requests_get h remote_get_url = Raise e ->
      exists r, _is_openrazer_up_to_date tr h = Ok (Some r) /\
                passed r = None) /\
  (forall version status_code text,
      rclient_version h = Some version ->
      requests_get h remote_get_url = Ok (status_code, text) ->
      List.length (PyStr.split "." (PyStr.strip text)) <> 3%nat ->
      exists r, _is_openrazer_up_to_date tr h = Ok (Some r) /\
                passed r = None) /\
  (rclient_version h = None ->
   _is_openrazer_up_to_date tr h = Ok None).
Proof.
  unfold _is_openrazer_up_to_date. repeat split.
  - intros version e -> ->. cbn. eexists. split; reflexivity.
  - intros version status_code text -> -> Hlen.
    apply Nat.eqb_neq in Hlen. rewrite Hlen, andb_false_r. cbn.
    eexists. split; reflexivity.
  - intros ->. reflexivity.
Qed.

(** C7: in a returned list the result of [_is_secure_boot_enabled]
    is present, as the eighth element of eleven, when the firmware path
    exists, and the function is not called and the list has ten elements
    when the path does not exist.  When the glob matches a file and the
    last word of the dump is the integer [status], the check returns
    with [passed] true exactly when [status] is 0; when the glob matches
    nothing it returns with [passed] unknown. *)
Theorem secure_boot_check (h : Host) :
  (forall l, returned (troubleshoot tr fmt h) = Results l ->
     (path_exists h "/sys/firmware/efi" = true ->
      In SecureBoot (calls (final (troubleshoot tr fmt h))) /\
      List.length l = 11%nat /\
      exists sb, _is_secure_boot_enabled tr h = Ok sb /\
                 nth_error l 7 = Some (Some sb)) /\
     (path_exists h "/sys/firmware/efi" = false ->
      ~ In SecureBoot (calls (final (troubleshoot tr fmt h))) /\
      List.length l = 10%nat)) /\
  (forall file others output code word status,
     glob h "/sys/firmware/efi/efivars/SecureBoot*" = file :: others ->
     popen h ["od"; "--address-radix=n"; "--format=u1"; file] = Ok (output, code) ->
     PyStr.index_last (PyStr.split " " output) = Ok word ->
     PyStr.parse_int (PyStr.strip word) = Some status ->
     exists r, _is_secure_boot_enabled tr h = Ok r /\
               passed r = Some (status =? 0) /\
               (passed r = Some true <-> status = 0)) /\
  (glob h "/sys/firmware/efi/efivars/SecureBoot*" = [] ->
   exists r, _is_secure_boot_enabled tr h = Ok r /\ passed r = None).
Proof.
  repeat split.
  - pose proof (results_shape tr fmt h l H)
      as (running & dkms & plugdev & sysfs & uptodate
          & _ & _ & _ & _ & _ & _ & _ & Hcalls).
    rewrite Hcalls. unfold secure_boot_call. rewrite H0. cbn. tauto.
  - rewrite (results_length tr fmt h l H), H0. reflexivity.
  - pose proof (results_shape tr fmt h l H)
      as (running & dkms & plugdev & sysfs & uptodate
          & _ & Hd & _ & _ & _ & Hefi & _ & _).
    destruct (Hefi H0) as (sb & Hsb & ->).
    exists sb. split; [exact Hsb|].
    apply (dkms_checks_length tr) in Hd.
    destruct dkms as [|d1 [|d2 [|d3 [|d4 [|]]]]]; try discriminate.
    reflexivity.
  - pose proof (results_shape tr fmt h l H)
      as (running & dkms & plugdev & sysfs & uptodate
          & _ & _ & _ & _ & _ & _ & _ & Hcalls).
    rewrite Hcalls. unfold secure_boot_call. rewrite H0. cbn.
    intros [E|[E|[E|[E|[E|[E|[E|[]]]]]]]]; discriminate.
  - rewrite (results_length tr fmt h l H), H0. reflexivity.
  - intros file others output code word status Hglob Hod Hword Hstatus.
    unfold _is_secure_boot_enabled. rewrite Hglob, Hod. cbn.
    rewrite Hword. cbn. unfold PyStr.int. rewrite Hstatus. cbn.
    eexists. split; [reflexivity|]. cbn. split; [reflexivity|].
    split.
    + intros [= E]. apply Z.eqb_eq. exact E.
    + intros ->. reflexivity.
  - intros Hglob. unfold _is_secure_boot_enabled. rewrite Hglob.
    eexists. split; reflexivity.
Qed.

End Claims.

(** C1: the three comparisons of the specification, as the code
    evaluates them.  The first two come out as stated; the third,
    ["2.9.9"] against ["3.0.0"], comes out true, because 9.9 is greater
    than 0.0 and the second test does not look at the major numbers. *)
Theorem version_test_vectors :
  _is_version_newer_then "3.1.0" "3.0.9" = Ok true /\
  _is_version_newer_then "3.0.1" "3.0.1" = Ok false /\
  _is_version_newer_then "2.9.9" "3.0.0" = Ok true.
Proof. repeat split; vm_compute; reflexivity. Qed.

(** ** The properties on the sample hosts *)

Module Witness.

Import Sample.

Definition same (s : string) : string := s.

Definition pid_path : string := "/run/user/1000/openrazer-daemon.pid".
Definition log : string := "/home/user/.local/share/openrazer/logs/razer.log".
Definition efi : string := "/sys/firmware/efi".


(** The sample machine with a PID file that holds no number. *)
Definition bad_pid : Host := with_readline (fun _ => Ok "abc") linux.

(** The sample machine off the network, and in front of a server that
    answers with a page. *)
Definition offline : Host :=
  with_requests_get (fun _ => Raise (RequestException "connection refused")) linux.
Definition wrong_answer : Host :=
  with_requests_get (fun _ => Ok (200, "<html>not found</html>")) linux.


Lemma missing_pid_file_not_running_witness :
  path_exists (without pid_path linux)
              (daemon_pid_file (without pid_path linux)) = false /\
  exists r, _is_daemon_running same (without pid_path linux) = Ok r /\
            passed r = Some false.
Proof.
  split; [reflexivity|].
  apply (missing_pid_file_not_running same (without pid_path linux)).
  reflexivity.
Defined.


Lemma fault_returns_error_string_witness :
  returned (troubleshoot same show bad_pid) =
    ErrorString "ValueError: invalid literal for int() with base 10: 'abc'".
Proof.
  apply (fault_returns_error_string same show bad_pid DaemonRunning
           (ValueError "invalid literal for int() with base 10: 'abc'")).
  - reflexivity.
  - cbn. right. right. left. reflexivity.
  - reflexivity.
Defined.

Lemma dkms_checks_without_library_raise_witness :
  _run_dkms_checks same (without_library linux) =
    Raise (UnboundLocalError "dkms_version") /\
  returned (troubleshoot same show (without_library linux)) =
    ErrorString "UnboundLocalError: dkms_version".
Proof.
  destruct (dkms_checks_without_library_raise same show (without_library linux)
              eq_refl) as [Hcheck Hrun].
  split; [exact Hcheck|].
  eapply Hrun; reflexivity.
Defined.

Lemma absent_log_appends_none_witness :
  _is_sysfs_plugdev_permissions_ok same (without log linux) = Ok None /\
  exists l l',
    returned (troubleshoot same show (without log linux)) = Results l /\
    returned (troubleshoot same show linux) = Results l' /\
    nth_error l 9 = Some None /\
    List.length l' = List.length l.
Proof.
  destruct (absent_log_appends_none same show (without log linux) eq_refl)
    as [Hcheck Hrun].
  split; [exact Hcheck|].
  eexists. eexists.
  split; [reflexivity|]. split; [reflexivity|].
  match goal with
  | |- nth_error ?l _ = _ /\ List.length ?l' = _ =>
      destruct (Hrun l eq_refl) as [Hnone Hlen];
      split; [exact Hnone | exact (Hlen linux l' eq_refl eq_refl)]
  end.
Defined.

Lemma up_to_date_unknown_outcomes_witness :
  (exists r, _is_openrazer_up_to_date same offline = Ok (Some r) /\
             passed r = None) /\
  (exists r, _is_openrazer_up_to_date same wrong_answer = Ok (Some r) /\
             passed r = None) /\
  _is_openrazer_up_to_date same (without_library linux) = Ok None.
Proof.
  split; [|split].
  - destruct (up_to_date_unknown_outcomes same offline) as (Hraise & _ & _).
    eapply Hraise; reflexivity.
  - destruct (up_to_date_unknown_outcomes same wrong_answer) as (_ & Htext & _).
    eapply Htext; [reflexivity | reflexivity | cbn; discriminate].
  - destruct (up_to_date_unknown_outcomes same (without_library linux))
      as (_ & _ & Hlib).
    apply Hlib. reflexivity.
Defined.

Lemma secure_boot_check_witness :
  (exists l sb,
      returned (troubleshoot same show linux) = Results l /\
      List.length l = 11%nat /\
      _is_secure_boot_enabled same linux = Ok sb /\
      nth_error l 7 = Some (Some sb) /\ passed sb = Some true) /\
  (exists l,
      returned (troubleshoot same show (without efi linux)) = Results l /\
      ~ In SecureBoot (calls (final (troubleshoot same show (without efi linux)))) /\
      List.length l = 10%nat) /\
  (exists r, _is_secure_boot_enabled same (with_glob (fun _ => []) linux) = Ok r /\
             passed r = None).
Proof.
  split; [|split].
  - destruct (secure_boot_check same show linux) as (Hrun & Hpassed & _).
    eexists. eexists.
    split; [reflexivity|].
    match goal with
    | |- List.length ?l = _ /\ _ =>
        destruct (Hrun l eq_refl) as [Hyes _];
        destruct (Hyes eq_refl) as (_ & Hlen & sb & Hsb & Hnth)
    end.
    split; [exact Hlen|].
    split; [reflexivity|]. split; reflexivity.
  - destruct (secure_boot_check same show (without efi linux)) as (Hrun & _ & _).
    eexists. split; [reflexivity|].
    match goal with
    | |- _ /\ List.length ?l = _ =>
        destruct (Hrun l eq_refl) as [_ Hno]; exact (Hno eq_refl)
    end.
  - destruct (secure_boot_check same show (with_glob (fun _ => []) linux))
      as (_ & _ & Hnone).
    apply Hnone. reflexivity.
Defined.

(** C3, as stated, fails on the sample machine: the list returned
    without the log is not one element shorter than the list returned
    with it. *)
Lemma absent_log_not_shorter :
  ~ (forall l l',
       returned (troubleshoot same show (without log linux)) = Results l ->
       returned (troubleshoot same show linux) = Results l' ->
       List.length l' = S (List.length l)).
Proof.
  intros H. specialize (H _ _ eq_refl eq_refl). discriminate H.
Qed.

(** C5, as stated, fails without the library: the check does not yield
    a result whose [passed] is unknown, it yields no result. *)
Lemma up_to_date_without_library_no_result :
  ~ (exists r,
       _is_openrazer_up_to_date same (without_library linux) = Ok (Some r) /\
       passed r = None).
Proof.
  intros (r & H & _). discriminate H.
Qed.

End Witness.

(** * Further properties *)

(** ** Text *)

Section TextFacts.

Import Text Version PyStr.


Lemma all_app p a b : all p (a ++ b) = all p a && all p b.
Proof.
induction a as [|c a IH]; cbn; [reflexivity|].
rewrite IH, andb_assoc. reflexivity.
Qed.

Lemma all_impl (p q : ascii -> bool) s :
(forall c, p c = true -> q c = true) -> all p s = true -> all q s = true.
Proof.
intros Hpq. induction s as [|c s IH]; cbn; [reflexivity|].
intros [Hc Hs]%andb_prop. rewrite (Hpq c Hc), (IH Hs). reflexivity.
Qed.

Lemma digits_all s : digits s = true -> all is_digit s = true.
Proof. unfold digits. intros [[_ H]%andb_prop _]%andb_prop. exact H. Qed.

Lemma digits_intro s :
s <> EmptyString -> all is_digit s = true -> (String.length s <= 4300)%nat ->
digits s = true.
Proof.
intros Hne Hall Hlen. unfold digits. rewrite Hall.
apply Nat.leb_le in Hlen. rewrite Hlen.
destruct s; [congruence | reflexivity].
Qed.

Lemma digits_cons s :
digits s = true -> exists c r, s = String c r /\ is_digit c = true /\ all is_digit r = true.
Proof.
intros H. apply digits_all in H as Hall.
destruct s as [|c r]; [discriminate H|].
cbn [all] in Hall. apply andb_prop in Hall as [Hc Hr]. eauto.
Qed.

(** What a digit is not. *)
Lemma digit_facts c :
is_digit c = true ->
Ascii.eqb c "." = false /\ Ascii.eqb c "_" = false /\
Ascii.eqb c "-" = false /\ Ascii.eqb c "+" = false /\
is_cspace c = false /\ PyFloat.is_e c = false /\ lower c = c.
Proof.
destruct c as [[] [] [] [] [] [] [] []]; cbn; intros H;
try discriminate H; repeat split; reflexivity.
Qed.

Lemma free_app p a b : free p (a ++ b) = free p a && free p b.
Proof. apply all_app. Qed.

Lemma digits_free (p : ascii -> bool) s :
(forall c, is_digit c = true -> p c = false) ->
all is_digit s = true -> free p s = true.
Proof.
intros Hp. apply all_impl. intros c Hc. rewrite (Hp c Hc). reflexivity.
Qed.

Lemma split_free sep s :
free (fun c => Ascii.eqb c sep) s = true -> split sep s = [s].
Proof.
induction s as [|c s IH]; cbn; [reflexivity|].
intros [Hc Hs]%andb_prop. apply negb_true_iff in Hc.
rewrite Hc, (IH Hs). reflexivity.
Qed.

Lemma split_app sep a r :
free (fun c => Ascii.eqb c sep) a = true ->
split sep (a ++ String sep r) = a :: split sep r.
Proof.
induction a as [|c a IH]; cbn.
- intros _. rewrite Ascii.eqb_refl. reflexivity.
- intros [Hc Ha]%andb_prop. apply negb_true_iff in Hc.
  rewrite Hc, (IH Ha). reflexivity.
Qed.

Lemma lstrip_free p s : free p s = true -> lstrip_by p s = s.
Proof.
destruct s as [|c s]; cbn; [reflexivity|].
intros [Hc _]%andb_prop. apply negb_true_iff in Hc. rewrite Hc. reflexivity.
Qed.

Lemma rstrip_free p s : free p s = true -> rstrip_by p s = s.
Proof.
induction s as [|c s IH]; cbn; [reflexivity|].
intros [Hc Hs]%andb_prop. apply negb_true_iff in Hc.
rewrite (IH Hs), Hc. destruct s; reflexivity.
Qed.

Lemma strip_free p s : free p s = true -> strip_by p s = s.
Proof.
intros H. unfold strip_by. rewrite (lstrip_free p s H). apply rstrip_free, H.
Qed.

Lemma break_free p s : free p s = true -> break p s = (s, None).
Proof.
induction s as [|c s IH]; cbn; [reflexivity|].
intros [Hc Hs]%andb_prop. apply negb_true_iff in Hc.
rewrite Hc, (IH Hs). reflexivity.
Qed.

Lemma break_app p a c r :
free p a = true -> p c = true -> break p (a ++ String c r) = (a, Some r).
Proof.
intros Ha Hc. induction a as [|x a IH]; cbn.
- rewrite Hc. reflexivity.
- cbn in Ha. apply andb_prop in Ha as [Hx Ha]. apply negb_true_iff in Hx.
  rewrite Hx, (IH Ha). reflexivity.
Qed.

Lemma len_cons c s : len (String c s) = len s + 1.
Proof. unfold len. cbn [String.length]. lia. Qed.

Lemma len_nonneg s : 0 <= len s.
Proof. unfold len. lia. Qed.

Lemma value_from_shift s acc :
value_from acc s = acc * 10 ^ len s + value s.
Proof.
unfold value. revert acc.
induction s as [|c s IH]; intros acc; cbn [value_from].
- unfold len; cbn. lia.
- rewrite IH, (IH (10 * 0 + digit_val c)), len_cons.
  rewrite Z.pow_add_r by (pose proof (len_nonneg s); lia).
  rewrite Z.pow_1_r. ring.
Qed.

Lemma digitpart_digits s :
all is_digit s = true -> s <> EmptyString ->
forall acc cnt, digitpart acc cnt s = Some (value_from acc s, cnt + len s).
Proof.
induction s as [|c s IH]; [congruence|].
intros Hall _ acc cnt. cbn in Hall. apply andb_prop in Hall as [Hc Hs].
cbn [digitpart value_from]. rewrite Hc.
destruct s as [|c' s'].
- cbn [value_from]. rewrite len_cons. unfold len; cbn. reflexivity.
- assert (Hc' : is_digit c' = true) by (cbn in Hs; apply andb_prop in Hs; tauto).
  destruct (digit_facts c' Hc') as (_ & -> & _).
  rewrite (IH Hs) by discriminate.
  rewrite (len_cons c). f_equal. f_equal. lia.
Qed.

Lemma value_nonneg_from s acc :
all is_digit s = true -> 0 <= acc -> 0 <= value_from acc s.
Proof.
revert acc. induction s as [|c s IH]; intros acc Hall Hacc; cbn [value_from];
  [exact Hacc|].
cbn [all] in Hall. apply andb_prop in Hall as [Hc Hs].
apply IH; [exact Hs|].
unfold is_digit in Hc. cbv zeta in Hc. apply andb_prop in Hc as [Hlo Hhi].
apply Z.leb_le in Hlo, Hhi. unfold digit_val. lia.
Qed.

Lemma value_nonneg s : all is_digit s = true -> 0 <= value s.
Proof. intros H. apply value_nonneg_from; [exact H | lia]. Qed.

(** [int] on a digit string. *)
Lemma int_digits s : digits s = true -> PyStr.int s = Ok (value s).
Proof.
intros Hd. destruct (digits_cons s Hd) as (c & r & -> & Hc & Hr).
assert (Hall : all is_digit (String c r) = true) by (apply digits_all, Hd).
unfold PyStr.int, parse_int.
rewrite strip_free
  by (apply (digits_free is_cspace); [intros x Hx; apply (digit_facts x Hx) | exact Hall]).
destruct (digit_facts c Hc) as (_ & _ & Hm & Hp & _).
unfold sign. rewrite Hm, Hp.
rewrite (digitpart_digits _ Hall) by discriminate. reflexivity.
Qed.

(** [float] on two digit strings around a point. *)
Lemma float_digits minor patch :
digits minor = true -> digits patch = true ->
PyFloat.float (minor ++ "." ++ patch) = Ok (nearest (decimal minor patch)).
Proof.
intros Hm Hp.
destruct (digits_cons minor Hm) as (c & r & -> & Hc & Hr).
destruct (digits_cons patch Hp) as (d & t & -> & Hd & Ht).
assert (Hallm : all is_digit (String c r) = true) by (apply digits_all, Hm).
assert (Hallp : all is_digit (String d t) = true) by (apply digits_all, Hp).
set (m := String c r) in *. set (p := String d t) in *.
assert (Hfree : forall q, (forall x, is_digit x = true -> q x = false) ->
                          q "."%char = false -> free q (m ++ "." ++ p) = true).
{ intros q Hq Hdot. rewrite free_app. change ("." ++ p) with (String "." p).
  unfold free at 2. cbn [all]. fold (free q p). rewrite Hdot.
  rewrite !(digits_free q) by assumption. reflexivity. }
unfold PyFloat.float, PyFloat.parse_float.
rewrite strip_free by (apply Hfree; [intros x Hx; apply (digit_facts x Hx) | reflexivity]).
destruct (digit_facts c Hc) as (Hcdot & _ & Hcm & Hcp & _ & _ & Hlow).
assert (Hsign : sign (m ++ "." ++ p) = (false, m ++ "." ++ p)).
{ subst m. cbn. rewrite Hcm, Hcp. reflexivity. }
rewrite Hsign.
assert (Hinf : String.eqb (lowercase (m ++ "." ++ p)) "inf" = false).
{ subst m. cbn. rewrite Hlow.
  destruct c as [[] [] [] [] [] [] [] []]; try discriminate Hc; reflexivity. }
assert (Hinfinity : String.eqb (lowercase (m ++ "." ++ p)) "infinity" = false).
{ subst m. cbn. rewrite Hlow.
  destruct c as [[] [] [] [] [] [] [] []]; try discriminate Hc; reflexivity. }
assert (Hnan : String.eqb (lowercase (m ++ "." ++ p)) "nan" = false).
{ subst m. cbn. rewrite Hlow.
  destruct c as [[] [] [] [] [] [] [] []]; try discriminate Hc; reflexivity. }
rewrite Hinf, Hinfinity, Hnan. cbn [orb].
unfold PyFloat.floatnumber.
rewrite break_free by (apply Hfree; [intros x Hx; apply (digit_facts x Hx) | reflexivity]).
unfold PyFloat.number.
change (m ++ "." ++ p) with (m ++ String "." p).
rewrite break_app;
  [ | apply (digits_free (Ascii.eqb ".")); [|exact Hallm] | reflexivity ].
2:{ intros x Hx. rewrite Ascii.eqb_sym. apply (digit_facts x Hx). }
subst m p.
rewrite (digitpart_digits _ Hallm) by discriminate.
rewrite (digitpart_digits _ Hallp) by discriminate.
unfold nearest, decimal, Float.of_decimal. cbn [Qnum Qden].
set (p := String d t). set (m := String c r).
assert (Hlen : 0 < len p) by (subst p; rewrite len_cons; pose proof (len_nonneg t); lia).
rewrite Z.add_0_l.
replace (Z.max 0 (- len p)) with 0 by lia.
replace (Z.max 0 (- - len p)) with (len p) by lia.
rewrite Z.pow_0_r, Z.mul_1_r.
rewrite Z2Pos.id by (apply Z.pow_pos_nonneg; lia).
rewrite (value_from_shift p (value_from 0 m)). reflexivity.
Qed.

End TextFacts.

(** ** Rounding to binary64 *)

Section RoundingFacts.

Import Float Binary.

Section Nearest.

Variables n d : Z.
Hypothesis Hd : 0 < d.

(** [rne n d] is at least [z] exactly when [n / d] is above [z - 1/2],
    or on it with [z] even. *)
Lemma rne_ge_iff (z : Z) :
z <= rne n d <->
(2 * z - 1) * d < 2 * n \/ ((2 * z - 1) * d = 2 * n /\ Z.even z = true).
Proof.
unfold rne.
pose proof (Z.div_mod n d ltac:(lia)) as Hdiv.
pose proof (Z.mod_pos_bound n d Hd) as Hmod.
set (q := n / d) in *. set (r := n mod d) in *.
assert (Hev : forall a, Z.even (a + 1) = negb (Z.even a)).
{ intros a. rewrite Z.even_add. destruct (Z.even a); reflexivity. }
destruct (Z.compare_spec (2 * r) d) as [Heq|Hlt|Hgt].
- destruct (Z.even q) eqn:Hq.
  + split.
    * intros Hz. destruct (Z.eq_dec z q) as [->|Hne]; [left; nia|left; nia].
    * intros [H|[H He]]; [nia|].
      assert (z = q + 1) by nia. subst z. rewrite Hev, Hq in He. discriminate.
  + split.
    * intros Hz. destruct (Z.eq_dec z (q + 1)) as [->|Hne].
      -- right. split; [nia|]. rewrite Hev, Hq. reflexivity.
      -- left. nia.
    * intros [H|[H He]]; nia.
- split; [intros Hz; left; nia | intros [H|[H He]]; nia].
- split; [intros Hz; left; nia | intros [H|[H He]]; nia].
Qed.

Lemma rne_lower (z : Z) : z * d <= n -> z <= rne n d.
Proof. intros H. apply rne_ge_iff. left. nia. Qed.

Lemma rne_upper (z : Z) : n <= z * d -> rne n d <= z.
Proof.
intros H. destruct (Z_le_gt_dec (rne n d) z) as [Hle|Hgt]; [exact Hle|].
assert (Hz : z + 1 <= rne n d) by lia.
apply rne_ge_iff in Hz. destruct Hz as [Hz|[Hz _]]; nia.
Qed.

End Nearest.

Lemma rne_mono (n1 d1 n2 d2 : Z) :
0 < d1 -> 0 < d2 ->
n1 * d2 <= n2 * d1 -> rne n1 d1 <= rne n2 d2.
Proof.
intros Hd1 Hd2 Hle.
apply (rne_ge_iff n2 d2 Hd2).
pose proof (proj1 (rne_ge_iff n1 d1 Hd1 (rne n1 d1)) (Z.le_refl _)) as H.
set (z := rne n1 d1) in *.
destruct H as [H|[H He]].
- left. destruct (Z_lt_le_dec (2 * z - 1) 0); [nia|].
  apply (Z.mul_lt_mono_pos_l d1); [exact Hd1|]. nia.
- destruct (Z_lt_le_dec ((2 * z - 1) * d2) (2 * n2)) as [Hlt|Hge]; [left; exact Hlt|].
  right. split; [|exact He].
  apply Z.le_antisymm; [|exact Hge].
  apply (Z.mul_le_mono_pos_l _ _ d1); [exact Hd1|]. nia.
Qed.

Lemma pow2_pos (k : Z) : 0 < 2 ^ k \/ (k < 0 /\ 2 ^ k = 0).
Proof.
destruct (Z_lt_le_dec k 0) as [Hk|Hk].
- right. split; [exact Hk|]. apply Z.pow_neg_r, Hk.
- left. apply Z.pow_pos_nonneg; lia.
Qed.

Lemma pow2_gt0 (k : Z) : 0 <= k -> 0 < 2 ^ k.
Proof. intros Hk. apply Z.pow_pos_nonneg; lia. Qed.

(** [ilog2 n d] is above the binary logarithm of [n / d] by less than 1. *)
Lemma ilog2_upper (n d : Z) :
0 < n -> 0 < d ->
n * 2 ^ Z.max 0 (- (ilog2 n d + 1)) < d * 2 ^ Z.max 0 (ilog2 n d + 1).
Proof.
intros Hn Hd. unfold ilog2.
destruct (Z.log2_spec n Hn) as [Hn1 Hn2].
destruct (Z.log2_spec d Hd) as [Hd1 Hd2].
pose proof (Z.log2_nonneg n) as Hln. pose proof (Z.log2_nonneg d) as Hld.
set (ln := Z.log2 n) in *. set (ld := Z.log2 d) in *.
set (k := ln - ld).
destruct (Z.ltb_spec (n * 2 ^ Z.max 0 (- k)) (d * 2 ^ Z.max 0 k)) as [Ht|Ht].
- replace (k - 1 + 1) with k by lia. exact Ht.
- destruct (Z_lt_le_dec (k + 1) 0) as [Hk|Hk].
  + replace (Z.max 0 (- (k + 1))) with (- (k + 1)) by lia.
    replace (Z.max 0 (k + 1)) with 0 by lia.
    rewrite Z.pow_0_r, Z.mul_1_r.
    apply Z.lt_le_trans with (2 ^ ld); [|exact Hd1].
    replace ld with (Z.succ ln + - (k + 1)) at 1 by lia.
    rewrite Z.pow_add_r by lia.
    pose proof (pow2_gt0 (- (k + 1)) ltac:(lia)). nia.
  + replace (Z.max 0 (- (k + 1))) with 0 by lia.
    replace (Z.max 0 (k + 1)) with (k + 1) by lia.
    rewrite Z.pow_0_r, Z.mul_1_r.
    apply Z.lt_le_trans with (2 ^ Z.succ ln); [exact Hn2|].
    replace (Z.succ ln) with (ld + (k + 1)) by lia.
    rewrite Z.pow_add_r by lia.
    pose proof (pow2_gt0 (k + 1) Hk). nia.
Qed.

(** A positive [ilog2 n d] is not above the binary logarithm of [n / d]. *)
Lemma ilog2_lower (n d : Z) :
0 < n -> 0 < d -> 0 < ilog2 n d -> d * 2 ^ ilog2 n d <= n.
Proof.
intros Hn Hd. unfold ilog2.
destruct (Z.log2_spec n Hn) as [Hn1 Hn2].
destruct (Z.log2_spec d Hd) as [Hd1 Hd2].
pose proof (Z.log2_nonneg n) as Hln. pose proof (Z.log2_nonneg d) as Hld.
set (ln := Z.log2 n) in *. set (ld := Z.log2 d) in *.
set (k := ln - ld).
destruct (Z.ltb_spec (n * 2 ^ Z.max 0 (- k)) (d * 2 ^ Z.max 0 k)) as [Ht|Ht];
  intros Hk.
- apply Z.le_trans with (2 ^ ln); [|exact Hn1].
  replace ln with (Z.succ ld + (k - 1)) at 1 by lia.
  rewrite Z.pow_add_r by lia.
  pose proof (pow2_gt0 (k - 1) ltac:(lia)). nia.
- replace (Z.max 0 (- k)) with 0 in Ht by lia.
  replace (Z.max 0 k) with k in Ht by lia.
  rewrite Z.pow_0_r, Z.mul_1_r in Ht. exact Ht.
Qed.

Lemma shift_nonneg n d : 0 <= shift n d.
Proof. unfold shift. lia. Qed.

Lemma shift_upper (n d : Z) :
0 <= n -> 0 < d -> n < d * 2 ^ (shift n d + 53).
Proof.
intros Hn Hd.
assert (Hp : 0 < 2 ^ (shift n d + 53)) by (apply pow2_gt0; pose proof (shift_nonneg n d); lia).
destruct (Z.eq_dec n 0) as [->|Hne]; [nia|].
pose proof (ilog2_upper n d ltac:(lia) Hd) as Hu.
unfold shift in *. set (k := ilog2 n d) in *.
destruct (Z_lt_le_dec (k + 1) 0) as [Hk|Hk].
- replace (Z.max 0 (- (k + 1))) with (- (k + 1)) in Hu by lia.
  replace (Z.max 0 (k + 1)) with 0 in Hu by lia.
  rewrite Z.pow_0_r, Z.mul_1_r in Hu.
  pose proof (pow2_gt0 (- (k + 1)) ltac:(lia)).
  assert (n < d) by nia.
  assert (1 <= 2 ^ (Z.max 0 (k - 52) + 53)) by lia. nia.
- replace (Z.max 0 (- (k + 1))) with 0 in Hu by lia.
  replace (Z.max 0 (k + 1)) with (k + 1) in Hu by lia.
  rewrite Z.pow_0_r, Z.mul_1_r in Hu.
  apply Z.lt_le_trans with (d * 2 ^ (k + 1)); [exact Hu|].
  apply Z.mul_le_mono_nonneg_l; [lia|].
  apply Z.pow_le_mono_r; lia.
Qed.

Lemma shift_lower (n d : Z) :
0 <= n -> 0 < d -> 0 < shift n d -> d * 2 ^ (shift n d + 52) <= n.
Proof.
intros Hn Hd Hs. unfold shift in *.
destruct (Z.eq_dec n 0) as [->|Hne].
- exfalso. unfold ilog2 in Hs. cbn [Z.log2] in Hs.
  pose proof (Z.log2_nonneg d).
  destruct (0 * 2 ^ Z.max 0 (- (0 - Z.log2 d)) <? d * 2 ^ Z.max 0 (0 - Z.log2 d)); lia.
- pose proof (ilog2_lower n d ltac:(lia) Hd ltac:(lia)) as Hl.
  replace (Z.max 0 (ilog2 n d - 52) + 52) with (ilog2 n d) by lia. exact Hl.
Qed.

(** The shift grows with the ratio. *)
Lemma shift_mono (n1 d1 n2 d2 : Z) :
0 <= n1 -> 0 < d1 -> 0 <= n2 -> 0 < d2 ->
n1 * d2 <= n2 * d1 -> shift n1 d1 <= shift n2 d2.
Proof.
intros Hn1 Hd1 Hn2 Hd2 Hle.
destruct (Z_le_gt_dec (shift n1 d1) (shift n2 d2)) as [H|H]; [exact H|].
exfalso.
pose proof (shift_nonneg n2 d2) as Hs2.
pose proof (shift_lower n1 d1 Hn1 Hd1 ltac:(lia)) as Hl.
pose proof (shift_upper n2 d2 Hn2 Hd2) as Hu.
assert (Hpow : 2 ^ (shift n2 d2 + 53) <= 2 ^ (shift n1 d1 + 52))
  by (apply Z.pow_le_mono_r; lia).
pose proof (pow2_gt0 (shift n2 d2 + 53) ltac:(lia)).
nia.
Qed.

(** [round_units] grows with the ratio. *)
Lemma round_units_mono (n1 d1 n2 d2 : Z) :
0 <= n1 -> 0 < d1 -> 0 <= n2 -> 0 < d2 ->
n1 * d2 <= n2 * d1 -> round_units n1 d1 <= round_units n2 d2.
Proof.
intros Hn1 Hd1 Hn2 Hd2 Hle. unfold round_units.
set (N1 := n1 * 2 ^ 1074). set (N2 := n2 * 2 ^ 1074).
assert (HN1 : 0 <= N1) by (subst N1; apply Z.mul_nonneg_nonneg; [lia | apply Z.pow_nonneg; lia]).
assert (HN2 : 0 <= N2) by (subst N2; apply Z.mul_nonneg_nonneg; [lia | apply Z.pow_nonneg; lia]).
assert (HN : N1 * d2 <= N2 * d1).
{ subst N1 N2. pose proof (pow2_gt0 1074 ltac:(lia)). nia. }
fold (shift N1 d1). fold (shift N2 d2).
pose proof (shift_mono N1 d1 N2 d2 HN1 Hd1 HN2 Hd2 HN) as Hs.
pose proof (shift_nonneg N1 d1) as Hs1.
set (s1 := shift N1 d1) in *. set (s2 := shift N2 d2) in *.
pose proof (pow2_gt0 s1 Hs1) as Hp1.
pose proof (pow2_gt0 s2 ltac:(lia)) as Hp2.
destruct (Z.eq_dec s1 s2) as [E|E].
- rewrite <- E.
  apply Z.mul_le_mono_nonneg_r; [lia|].
  apply rne_mono; nia.
- assert (Hu : rne N1 (d1 * 2 ^ s1) <= 2 ^ 53).
  { apply rne_upper; [nia|].
    pose proof (shift_upper N1 d1 HN1 Hd1) as Hup. fold s1 in Hup.
    rewrite Z.pow_add_r in Hup by lia. nia. }
  assert (Hl : 2 ^ 52 <= rne N2 (d2 * 2 ^ s2)).
  { apply rne_lower; [nia|].
    pose proof (shift_lower N2 d2 HN2 Hd2 ltac:(lia)) as Hlo. fold s2 in Hlo.
    rewrite Z.pow_add_r in Hlo by lia. nia. }
  apply Z.le_trans with (2 ^ 53 * 2 ^ s1); [nia|].
  apply Z.le_trans with (2 ^ 52 * 2 ^ s2); [|nia].
  rewrite <- !Z.pow_add_r by lia.
  apply Z.pow_le_mono_r; lia.
Qed.

(** [rne n d] is within one half of [n / d]. *)
Lemma rne_error (n d : Z) :
0 < d -> (2 * rne n d - 1) * d <= 2 * n <= (2 * rne n d + 1) * d.
Proof.
intros Hd. split.
- pose proof (proj1 (rne_ge_iff n d Hd (rne n d)) (Z.le_refl _)) as H.
  destruct H as [H|[H _]]; lia.
- destruct (Z_le_gt_dec (2 * n) ((2 * rne n d + 1) * d)) as [H|H]; [exact H|].
  exfalso.
  assert (Hz : rne n d + 1 <= rne n d).
  { apply (rne_ge_iff n d Hd). left. nia. }
  lia.
Qed.

(** The weight of the last kept bit is below 2^-52 of the ratio, or is
    the unit. *)
Lemma shift_weight (n d : Z) :
0 <= n -> 0 < d -> d * 2 ^ shift n d * 2 ^ 52 <= Z.max (d * 2 ^ 52) n.
Proof.
intros Hn Hd.
pose proof (shift_nonneg n d) as Hs.
destruct (Z.eq_dec (shift n d) 0) as [E|E].
- rewrite E, Z.pow_0_r. lia.
- pose proof (shift_lower n d Hn Hd ltac:(lia)) as Hl.
  rewrite Z.pow_add_r in Hl by lia. lia.
Qed.


(** The arithmetic behind [round_units_strict]: with [T = 2^52],
    [E = 10^15] and [P = 2^1074]. *)
Lemma gap_bound (a b D T E P : Z) :
0 <= a -> a < b -> a < E -> 0 < D <= E ->
4 < T -> 3 * E < 2 * T -> 4 * E * T <= P ->
2 * D * T + (a + b) * P < 2 * (b - a) * T * P.
Proof.
intros Ha Hab HaE HD HT HET HP.
assert (HE : 0 < E) by lia.
assert (HPpos : 0 < P) by nia.
assert (HDT : 2 * D * T <= 2 * E * T) by nia.
destruct (Z_le_gt_dec (2 * a) b) as [Hfar|Hnear].
- (* the gap is at least half of [b] *)
  assert (H1 : (a + b) * P <= 2 * b * P) by nia.
  assert (H2 : b * T * P <= 2 * (b - a) * T * P).
  { assert (b <= 2 * (b - a)) by lia.
    assert (0 < T * P) by nia.
    replace (b * T * P) with (b * (T * P)) by ring.
    replace (2 * (b - a) * T * P) with (2 * (b - a) * (T * P)) by ring.
    apply Z.mul_le_mono_nonneg_r; lia. }
  assert (H3 : 2 * E * T + 2 * b * P < b * T * P).
  { assert (Hb : 1 <= b) by lia.
    assert (H4 : 2 * E * T < (T - 2) * P).
    { assert (2 * P <= (T - 2) * P) by nia.
      assert (2 * E * T < 2 * P) by nia. lia. }
    assert (H5 : (T - 2) * P <= b * ((T - 2) * P)).
    { assert (0 <= (T - 2) * P) by nia. nia. }
    replace (b * T * P) with (b * ((T - 2) * P) + 2 * b * P) by ring. lia. }
  lia.
- (* both are below [2 * E] and the gap is at least one *)
  assert (H1 : (a + b) * P <= 3 * E * P).
  { apply Z.mul_le_mono_nonneg_r; lia. }
  assert (H2 : 2 * T * P <= 2 * (b - a) * T * P).
  { assert (1 <= b - a) by lia.
    assert (0 < T * P) by nia.
    replace (2 * T * P) with (2 * 1 * (T * P)) by ring.
    replace (2 * (b - a) * T * P) with (2 * (b - a) * (T * P)) by ring.
    apply Z.mul_le_mono_nonneg_r; lia. }
  assert (H3 : 2 * E * T + 3 * E * P < 2 * T * P).
  { assert (P <= (2 * T - 3 * E) * P) by nia.
    assert (2 * E * T < P) by nia.
    replace (2 * T * P) with ((2 * T - 3 * E) * P + 3 * E * P) by ring. lia. }
  lia.
Qed.

(** Two ratios over one denominator whose numerators differ are rounded
    apart, when the lesser numerator is below 10^15 and the denominator is
    at most 10^15. *)
Lemma round_units_strict (a b D : Z) :
0 <= a -> a < b -> a < 10 ^ 15 -> 0 < D <= 10 ^ 15 ->
round_units a D < round_units b D.
Proof.
intros Ha Hab Ha15 HD. unfold round_units.
assert (HT : 4 < 2 ^ 52) by reflexivity.
assert (HET : 3 * 10 ^ 15 < 2 * 2 ^ 52) by reflexivity.
assert (HP : 4 * 10 ^ 15 * 2 ^ 52 <= 2 ^ 1074) by (intros H; discriminate H).
pose proof (gap_bound a b D (2 ^ 52) (10 ^ 15) (2 ^ 1074)
              Ha Hab Ha15 HD HT HET HP) as Hgap.
assert (Hp : 0 < 2 ^ 1074) by (apply pow2_gt0; lia).
clear HT HET HP Ha15.
set (T := 2 ^ 52) in *. set (P := 2 ^ 1074) in *.
assert (HTpos : 0 < T) by (subst T; apply pow2_gt0; lia).
set (A := a * P) in *. set (B := b * P) in *.
fold (shift A D). fold (shift B D).
assert (HA : 0 <= A) by (subst A; apply Z.mul_nonneg_nonneg; lia).
assert (HB : 0 <= B) by (subst B; apply Z.mul_nonneg_nonneg; lia).
pose proof (shift_nonneg A D) as HsA. pose proof (shift_nonneg B D) as HsB.
pose proof (shift_weight A D HA ltac:(lia)) as HwA.
pose proof (shift_weight B D HB ltac:(lia)) as HwB.
fold T in HwA, HwB.
set (sA := shift A D) in *. set (sB := shift B D) in *.
pose proof (pow2_gt0 sA HsA) as HpA. pose proof (pow2_gt0 sB HsB) as HpB.
set (wA := 2 ^ sA) in *. set (wB := 2 ^ sB) in *.
assert (HDA : 0 < D * wA) by (apply Z.mul_pos_pos; lia).
assert (HDB : 0 < D * wB) by (apply Z.mul_pos_pos; lia).
pose proof (rne_error A (D * wA) HDA) as [HeA _].
pose proof (rne_error B (D * wB) HDB) as [_ HeB].
set (rA := rne A (D * wA)) in *. set (rB := rne B (D * wB)) in *.
(* in terms of the rounded values [uA] and [uB] *)
set (uA := rA * wA). set (uB := rB * wB).
assert (HuA : 2 * D * uA <= 2 * A + D * wA).
{ subst uA. replace (2 * D * (rA * wA)) with ((2 * rA - 1) * (D * wA) + D * wA) by ring. lia. }
assert (HuB : 2 * B - D * wB <= 2 * D * uB).
{ subst uB. replace (2 * D * (rB * wB)) with ((2 * rB + 1) * (D * wB) - D * wB) by ring. lia. }
assert (Hw : (D * wA + D * wB) * T <= 2 * D * T + A + B).
{ replace ((D * wA + D * wB) * T) with (D * wA * T + D * wB * T) by ring. lia. }
assert (Hlt : (D * wA + D * wB) * T < 2 * (B - A) * T).
{ apply Z.le_lt_trans with (1 := Hw).
  subst A B. replace (2 * (b * P - a * P) * T) with (2 * (b - a) * T * P) by ring.
  replace (2 * D * T + a * P + b * P) with (2 * D * T + (a + b) * P) by ring.
  exact Hgap. }
assert (Hlt' : D * wA + D * wB < 2 * (B - A)).
{ apply (Z.mul_lt_mono_pos_r T); [exact HTpos | exact Hlt]. }
assert (H2 : 2 * D * uA < 2 * D * uB) by lia.
apply (Z.mul_lt_mono_pos_l (2 * D)); [lia | exact H2].
Qed.

(** [round_units] depends on the ratio alone. *)
Lemma round_units_ratio (n1 d1 n2 d2 : Z) :
0 <= n1 -> 0 < d1 -> 0 <= n2 -> 0 < d2 ->
n1 * d2 = n2 * d1 -> round_units n1 d1 = round_units n2 d2.
Proof.
intros Hn1 Hd1 Hn2 Hd2 E.
apply Z.le_antisymm; apply round_units_mono; lia.
Qed.

End RoundingFacts.

(** ** The version comparison *)

Section VersionFacts.

Import Text Version PyStr.

Lemma digits_dot_free s :
all is_digit s = true -> free (fun c => Ascii.eqb c ".") s = true.
Proof.
apply digits_free. intros c Hc. apply (digit_facts c Hc).
Qed.

Lemma split_version a b c :
digits a = true -> digits b = true -> digits c = true ->
split "." (version a b c) = [a; b; c].
Proof.
intros Ha Hb Hc. unfold version.
change ("." ++ b ++ "." ++ c) with (String "." (b ++ String "." c)).
rewrite split_app by (apply digits_dot_free, digits_all, Ha).
rewrite split_app by (apply digits_dot_free, digits_all, Hb).
rewrite split_free by (apply digits_dot_free, digits_all, Hc).
reflexivity.
Qed.

(** The comparison, in terms of the pieces [split] cuts the two texts
    into. *)
Lemma compare_components (verA verB a b c a' b' c' : string) :
split "." verA = [a; b; c] -> split "." verB = [a'; b'; c'] ->
digits a = true -> digits b = true -> digits c = true ->
digits a' = true -> digits b' = true -> digits c' = true ->
_is_version_newer_then verA verB = Ok (newer a b c a' b' c').
Proof.
intros HA HB Ha Hb Hc Ha' Hb' Hc'. unfold _is_version_newer_then.
rewrite HA, HB. cbn [index nth_error bind].
rewrite (int_digits a Ha), (int_digits a' Ha'). cbn [bind].
rewrite (float_digits b c Hb Hc), (float_digits b' c' Hb' Hc'). cbn [bind].
unfold newer.
destruct (value a >? value a'),
  (Float.gt (nearest (decimal b c)) (nearest (decimal b' c'))); reflexivity.
Qed.

Lemma compare_well_formed (a b c a' b' c' : string) :
digits a = true -> digits b = true -> digits c = true ->
digits a' = true -> digits b' = true -> digits c' = true ->
_is_version_newer_then (version a b c) (version a' b' c') =
  Ok (newer a b c a' b' c').
Proof.
intros Ha Hb Hc Ha' Hb' Hc'.
apply compare_components; try assumption; apply split_version; assumption.
Qed.


(** *** Doubles against exact decimals *)

Lemma round_not_gt (n1 d1 n2 d2 : Z) :
0 <= n1 -> 0 < d1 -> 0 <= n2 -> 0 < d2 ->
n1 * d2 <= n2 * d1 ->
Float.gt (Float.round n1 d1) (Float.round n2 d2) = false.
Proof.
intros Hn1 Hd1 Hn2 Hd2 Hle.
pose proof (round_units_mono n1 d1 n2 d2 Hn1 Hd1 Hn2 Hd2 Hle) as Hu.
unfold Float.round.
destruct (Z.leb_spec Float.overflow_threshold (Float.round_units n1 d1)) as [H1|H1];
destruct (Z.leb_spec Float.overflow_threshold (Float.round_units n2 d2)) as [H2|H2];
  cbn; try reflexivity; [lia|].
apply Z.ltb_ge. exact Hu.
Qed.

Lemma nearest_gt_sound (x y : Q) :
0 <= Qnum x -> 0 <= Qnum y ->
Float.gt (nearest x) (nearest y) = true -> (y < x)%Q.
Proof.
intros Hx Hy Hgt. unfold Qlt.
destruct (Z_lt_le_dec (Qnum y * Zpos (Qden x)) (Qnum x * Zpos (Qden y)))
  as [H|H]; [exact H|].
unfold nearest in Hgt.
rewrite (round_not_gt (Qnum x) (Zpos (Qden x)) (Qnum y) (Zpos (Qden y)))
  in Hgt by (try exact H; lia).
discriminate Hgt.
Qed.

Lemma digit_val_bound c : is_digit c = true -> 0 <= digit_val c <= 9.
Proof.
unfold is_digit, digit_val. cbv zeta.
intros [Hlo Hhi]%andb_prop. apply Z.leb_le in Hlo, Hhi. lia.
Qed.

Lemma value_bound s : all is_digit s = true -> 0 <= value s < 10 ^ len s.
Proof.
induction s as [|c s IH]; intros Hall.
- unfold value, len; cbn. lia.
- cbn [all] in Hall. apply andb_prop in Hall as [Hc Hs].
  specialize (IH Hs). pose proof (digit_val_bound c Hc) as Hd.
  unfold value. cbn [value_from]. rewrite value_from_shift, len_cons.
  rewrite Z.pow_add_r, Z.pow_1_r by (pose proof (len_nonneg s); lia).
  pose proof (len_nonneg s) as Hl.
  assert (0 < 10 ^ len s) by (apply Z.pow_pos_nonneg; lia).
  nia.
Qed.

Lemma decimal_num_bound b c :
all is_digit b = true -> all is_digit c = true ->
0 <= Qnum (decimal b c) < 10 ^ (len b + len c).
Proof.
intros Hb Hc. unfold decimal. cbn [Qnum].
pose proof (value_bound b Hb) as Vb. pose proof (value_bound c Hc) as Vc.
pose proof (len_nonneg b) as Lb. pose proof (len_nonneg c) as Lc.
rewrite Z.pow_add_r by lia.
assert (0 < 10 ^ len c) by (apply Z.pow_pos_nonneg; lia).
nia.
Qed.

Lemma decimal_den b c : Zpos (Qden (decimal b c)) = 10 ^ len c.
Proof.
unfold decimal. cbn [Qden].
apply Z2Pos.id, Z.pow_pos_nonneg; [lia | apply len_nonneg].
Qed.

(** Two decimals of at most fifteen digits each are rounded apart. *)
Lemma nearest_gt_complete (b c b' c' : string) :
all is_digit b = true -> all is_digit c = true ->
all is_digit b' = true -> all is_digit c' = true ->
len b + len c <= 15 -> len b' + len c' <= 15 ->
(decimal b' c' < decimal b c)%Q ->
Float.gt (nearest (decimal b c)) (nearest (decimal b' c')) = true.
Proof.
intros Hb Hc Hb' Hc' Hlen Hlen' Hlt.
pose proof (decimal_num_bound b c Hb Hc) as Hn.
pose proof (decimal_num_bound b' c' Hb' Hc') as Hn'.
unfold Qlt in Hlt. rewrite !decimal_den in Hlt.
unfold nearest. rewrite !decimal_den.
set (n := Qnum (decimal b c)) in *. set (n' := Qnum (decimal b' c')) in *.
pose proof (len_nonneg b) as Lb. pose proof (len_nonneg c) as Lc.
pose proof (len_nonneg b') as Lb'. pose proof (len_nonneg c') as Lc'.
set (k := len c) in *. set (k' := len c') in *.
assert (Hk : 0 < 10 ^ k) by (apply Z.pow_pos_nonneg; lia).
assert (Hk' : 0 < 10 ^ k') by (apply Z.pow_pos_nonneg; lia).
assert (Hn15 : n < 10 ^ 15).
{ apply Z.lt_le_trans with (10 ^ (len b + k)); [lia|].
  apply Z.pow_le_mono_r; lia. }
assert (Hn15' : n' < 10 ^ 15).
{ apply Z.lt_le_trans with (10 ^ (len b' + k')); [lia|].
  apply Z.pow_le_mono_r; lia. }
(* over the common denominator [10 ^ (k + k')] *)
set (D := 10 ^ (k + k')).
assert (HD : D = 10 ^ k * 10 ^ k') by (subst D; apply Z.pow_add_r; lia).
assert (HDpos : 0 < D) by nia.
assert (Hu : Float.round_units n (10 ^ k) = Float.round_units (n * 10 ^ k') D).
{ apply round_units_ratio; nia. }
assert (Hu' : Float.round_units n' (10 ^ k') = Float.round_units (n' * 10 ^ k) D).
{ apply round_units_ratio; nia. }
assert (Hstrict : Float.round_units n' (10 ^ k') < Float.round_units n (10 ^ k)).
{ rewrite Hu, Hu'.
  (* the lesser ratio is below 10^15 over a denominator of at most 10^15 *)
  destruct (Z_le_gt_dec k' k) as [Hkk|Hkk].
  - (* the denominator [10 ^ k] serves both *)
    set (a := n' * 10 ^ (k - k')).
    assert (Hp : 10 ^ k = 10 ^ (k - k') * 10 ^ k').
    { rewrite <- Z.pow_add_r by lia. f_equal. lia. }
    assert (Hpp : 0 < 10 ^ (k - k')) by (apply Z.pow_pos_nonneg; lia).
    assert (Ha : Float.round_units (n' * 10 ^ k) D = Float.round_units a (10 ^ k)).
    { apply round_units_ratio; subst a; nia. }
    assert (Hb2 : Float.round_units (n * 10 ^ k') D = Float.round_units n (10 ^ k)).
    { apply round_units_ratio; nia. }
    rewrite Ha, Hb2.
    assert (Hab : a < n).
    { subst a. apply (Z.mul_lt_mono_pos_r (10 ^ k')); [exact Hk'|].
      replace (n' * 10 ^ (k - k') * 10 ^ k') with (n' * 10 ^ k) by (rewrite Hp; ring).
      exact Hlt. }
    apply round_units_strict.
    + subst a. nia.
    + exact Hab.
    + lia.
    + split; [exact Hk|]. apply Z.pow_le_mono_r; lia.
  - (* the denominator [10 ^ k'] serves both *)
    set (a := n * 10 ^ (k' - k)).
    assert (Hp : 10 ^ k' = 10 ^ (k' - k) * 10 ^ k).
    { rewrite <- Z.pow_add_r by lia. f_equal. lia. }
    assert (Hpp : 0 < 10 ^ (k' - k)) by (apply Z.pow_pos_nonneg; lia).
    assert (Ha : Float.round_units (n * 10 ^ k') D = Float.round_units a (10 ^ k')).
    { apply round_units_ratio; subst a; nia. }
    assert (Hb2 : Float.round_units (n' * 10 ^ k) D = Float.round_units n' (10 ^ k')).
    { apply round_units_ratio; nia. }
    rewrite Ha, Hb2.
    assert (Hab : n' < a).
    { subst a. apply (Z.mul_lt_mono_pos_r (10 ^ k)); [exact Hk|].
      replace (n * 10 ^ (k' - k) * 10 ^ k) with (n * 10 ^ k') by (rewrite Hp; ring).
      exact Hlt. }
    apply round_units_strict.
    + lia.
    + exact Hab.
    + exact Hn15'.
    + split; [exact Hk'|]. apply Z.pow_le_mono_r; lia. }
(* neither overflows *)
assert (Hfin : forall m e, 0 <= m < 10 ^ 15 -> 0 < e ->
                 Float.round_units m e < Float.overflow_threshold).
{ intros m e Hm He.
  apply Z.le_lt_trans with (Float.round_units (10 ^ 15) 1).
  - apply round_units_mono; nia.
  - vm_compute. reflexivity. }
unfold Float.round.
destruct (Z.leb_spec Float.overflow_threshold (Float.round_units n (10 ^ k))) as [H1|H1].
{ specialize (Hfin n (10 ^ k) ltac:(lia) Hk). lia. }
destruct (Z.leb_spec Float.overflow_threshold (Float.round_units n' (10 ^ k'))) as [H2|H2].
{ specialize (Hfin n' (10 ^ k') ltac:(lia) Hk'). lia. }
cbn. apply Z.ltb_lt. exact Hstrict.
Qed.

(** *** The two tests on well-formed versions *)

Lemma newer_sound (a b c a' b' c' : string) :
all is_digit b = true -> all is_digit c = true ->
all is_digit b' = true -> all is_digit c' = true ->
newer a b c a' b' c' = true ->
value a > value a' \/ (decimal b' c' < decimal b c)%Q.
Proof.
intros Hb Hc Hb' Hc' Hnew. unfold newer in Hnew.
apply orb_prop in Hnew as [Hmaj|Hrest].
- left. apply Z.gtb_gt. exact Hmaj.
- right. apply nearest_gt_sound; [| |exact Hrest].
  + apply (decimal_num_bound b c); assumption.
  + apply (decimal_num_bound b' c'); assumption.
Qed.

Lemma newer_complete (a b c a' b' c' : string) :
all is_digit b = true -> all is_digit c = true ->
all is_digit b' = true -> all is_digit c' = true ->
len b + len c <= 15 -> len b' + len c' <= 15 ->
value a > value a' \/ (decimal b' c' < decimal b c)%Q ->
newer a b c a' b' c' = true.
Proof.
intros Hb Hc Hb' Hc' Hlen Hlen' H. unfold newer. apply orb_true_iff.
destruct H as [Hmaj|Hrest].
- left. apply Z.gtb_gt. exact Hmaj.
- right. apply nearest_gt_complete; assumption.
Qed.

Lemma newer_irrefl (a b c : string) :
all is_digit b = true -> all is_digit c = true -> newer a b c a b c = false.
Proof.
intros Hb Hc. unfold newer. apply orb_false_iff. split.
- rewrite Z.gtb_ltb. apply Z.ltb_irrefl.
- apply round_not_gt; try reflexivity; try lia;
    apply (decimal_num_bound b c); assumption.
Qed.

(** *** The comparison on well-formed versions *)

(** X1: On well-formed versions [_is_version_newer_then] returns, and
    declares the first newer exactly when its major number is greater or
    the double nearest to its [minor.patch] is greater than the double
    nearest to the other [minor.patch]. *)
Theorem version_newer_well_formed (a b c a' b' c' : string) :
digits a = true -> digits b = true -> digits c = true ->
digits a' = true -> digits b' = true -> digits c' = true ->
_is_version_newer_then (version a b c) (version a' b' c') =
  Ok ((value a >? value a')
      || Float.gt (nearest (decimal b c)) (nearest (decimal b' c'))).
Proof.
intros Ha Hb Hc Ha' Hb' Hc'.
rewrite (compare_components (version a b c) (version a' b' c') a b c a' b' c')
  by (try assumption; apply split_version; assumption).
reflexivity.
Qed.

(** X2: When [_is_version_newer_then] declares a well-formed version newer
    than another, its major number is greater or its [minor.patch], read
    as an exact decimal, is greater. *)
Theorem version_newer_sound (a b c a' b' c' : string) :
digits a = true -> digits b = true -> digits c = true ->
digits a' = true -> digits b' = true -> digits c' = true ->
_is_version_newer_then (version a b c) (version a' b' c') = Ok true ->
value a > value a' \/ (decimal b' c' < decimal b c)%Q.
Proof.
intros Ha Hb Hc Ha' Hb' Hc'.
rewrite (compare_well_formed a b c a' b' c') by assumption.
intros [= Hnew].
apply (newer_sound a b c a' b' c'); try apply digits_all; assumption.
Qed.

(** X3: When the minor and patch components have at most fifteen digits
    together, in each version, the comparison is the one of the exact
    decimals: the first version is declared newer exactly when its major
    number is greater or its [minor.patch] is greater, whatever the major
    numbers are in the second case. *)
Theorem version_newer_exact (a b c a' b' c' : string) :
digits a = true -> digits b = true -> digits c = true ->
digits a' = true -> digits b' = true -> digits c' = true ->
len b + len c <= 15 -> len b' + len c' <= 15 ->
(_is_version_newer_then (version a b c) (version a' b' c') = Ok true <->
 value a > value a' \/ (decimal b' c' < decimal b c)%Q).
Proof.
intros Ha Hb Hc Ha' Hb' Hc' Hlen Hlen'.
rewrite (compare_well_formed a b c a' b' c') by assumption.
split.
- intros [= Hnew].
  apply (newer_sound a b c a' b' c'); try apply digits_all; assumption.
- intros H. f_equal.
  apply newer_complete; try apply digits_all; assumption.
Qed.

(** X4: No well-formed version is newer than itself. *)
Theorem version_not_newer_than_itself (a b c : string) :
digits a = true -> digits b = true -> digits c = true ->
_is_version_newer_then (version a b c) (version a b c) = Ok false.
Proof.
intros Ha Hb Hc.
rewrite (compare_well_formed a b c a b c) by assumption.
f_equal. apply newer_irrefl; apply digits_all; assumption.
Qed.

(** X5: A second version of two components makes the comparison raise
    [IndexError], after the major numbers were read. *)
Theorem version_two_components_raise (a b c a' b' : string) :
digits a = true -> digits b = true -> digits c = true ->
digits a' = true -> digits b' = true ->
_is_version_newer_then (version a b c) (a' ++ "." ++ b') = Raise IndexError.
Proof.
intros Ha Hb Hc Ha' Hb'. unfold _is_version_newer_then.
rewrite (split_version a b c Ha Hb Hc).
change ("." ++ b') with (String "." b').
rewrite split_app by (apply digits_dot_free, digits_all, Ha').
rewrite split_free by (apply digits_dot_free, digits_all, Hb').
cbn [index nth_error bind].
rewrite (int_digits a Ha), (int_digits a' Ha'). cbn [bind].
rewrite (float_digits b c Hb Hc). reflexivity.
Qed.


End VersionFacts.

(** ** More on text *)

Section MoreText.

Import Text Version PyStr.

Lemma append_empty (s : string) : s ++ EmptyString = s.
Proof. induction s as [|c s IH]; cbn; [reflexivity | rewrite IH; reflexivity]. Qed.

Lemma append_assoc (a b c : string) : (a ++ b) ++ c = a ++ b ++ c.
Proof. induction a as [|x a IH]; cbn; [reflexivity | rewrite IH; reflexivity]. Qed.

Lemma prefix_iff (a s : string) :
String.prefix a s = true <-> exists rest, s = a ++ rest.
Proof.
revert s. induction a as [|x a IH]; intros s.
- split; [intros _; exists s; reflexivity | intros _; destruct s; reflexivity].
- destruct s as [|y s]; cbn [String.prefix String.append].
  + split; [discriminate | intros [rest H]; discriminate H].
  + destruct (Ascii.ascii_dec x y) as [->|Hne].
    * rewrite IH. split; intros [rest H]; exists rest.
      -- rewrite H. reflexivity.
      -- cbn in H. injection H as H. exact H.
    * split; [discriminate | intros [rest H]; cbn in H; congruence].
Qed.

(** [contains] finds exactly the occurrences. *)
Lemma contains_iff (sub s : string) : contains sub s = true <-> occurs sub s.
Proof.
unfold occurs. induction s as [|c s IH].
- cbn [contains]. destruct (String.prefix sub EmptyString) eqn:Hp.
  + split; [intros _|reflexivity].
    apply prefix_iff in Hp as [rest H]. exists EmptyString, rest. exact H.
  + split; [discriminate|]. intros (before & after & H). exfalso.
    destruct before; [|discriminate H]. cbn in H.
    assert (String.prefix sub EmptyString = true) by (apply prefix_iff; eauto).
    congruence.
- cbn [contains]. destruct (String.prefix sub (String c s)) eqn:Hp.
  + split; [intros _|reflexivity].
    apply prefix_iff in Hp as [rest H]. exists EmptyString, rest. exact H.
  + rewrite IH. split.
    * intros (before & after & ->). exists (String c before), after. reflexivity.
    * intros (before & after & H). destruct before as [|x before].
      -- exfalso. cbn in H.
         assert (String.prefix sub (String c s) = true) by (apply prefix_iff; eauto).
         congruence.
      -- cbn in H. injection H as -> ->. eauto.
Qed.

Lemma occurs_in_join (sub line : string) (lines : list string) :
In line lines -> occurs sub line -> occurs sub (join lines).
Proof.
intros Hin (before & after & ->).
apply in_split in Hin as (l1 & l2 & ->).
unfold join. rewrite fold_right_app. cbn [fold_right].
fold (join l2).
assert (Happ : forall l acc, fold_right String.append acc l = join l ++ acc).
{ induction l as [|x l IH]; intros acc; cbn; [reflexivity|].
  rewrite IH, append_assoc. reflexivity. }
rewrite Happ.
exists (join l1 ++ before), (after ++ join l2).
rewrite !append_assoc. reflexivity.
Qed.

(** [split] cuts at every separator. *)
Lemma split_length (sep : ascii) (s : string) :
List.length (split sep s) = S (count sep s).
Proof.
induction s as [|c s IH]; cbn [split count]; [reflexivity|].
destruct (Ascii.eqb c sep); cbn [List.length]; [rewrite IH; reflexivity|].
destruct (split sep s); cbn [List.length] in *; [discriminate IH | exact IH].
Qed.

(** What follows the last separator is the last piece. *)
Lemma split_last (sep : ascii) (before w : string) :
free (fun c => Ascii.eqb c sep) w = true ->
exists pieces, pieces <> [] /\
  split sep (before ++ String sep w) = (pieces ++ [w])%list.
Proof.
intros Hw. induction before as [|c before IH]; cbn [String.append split].
- rewrite Ascii.eqb_refl, (split_free sep w Hw).
  exists [EmptyString]. split; [discriminate | reflexivity].
- destruct IH as (pieces & Hne & ->).
  destruct (Ascii.eqb c sep).
  + exists (EmptyString :: pieces). split; [discriminate | reflexivity].
  + destruct pieces as [|p pieces]; [congruence|]. cbn.
    exists (String c p :: pieces). split; [discriminate | reflexivity].
Qed.

Lemma index_last_app {A : Type} (l : list A) (x : A) :
index_last (l ++ [x]) = Ok x.
Proof. unfold index_last. rewrite rev_app_distr. reflexivity. Qed.

Lemma rstrip_app_space (p : ascii -> bool) (s : string) (c : ascii) :
s <> EmptyString -> free p s = true -> p c = true ->
rstrip_by p (s ++ String c EmptyString) = s.
Proof.
intros Hne Hs Hc. induction s as [|x s IH]; [congruence|].
cbn [String.append rstrip_by]. cbn in Hs. apply andb_prop in Hs as [Hx Hs].
apply negb_true_iff in Hx.
destruct s as [|y s].
- cbn. rewrite Hc, Hx. reflexivity.
- rewrite IH by (try discriminate; exact Hs). reflexivity.
Qed.

Lemma strip_line (p : ascii -> bool) (s : string) (c : ascii) :
s <> EmptyString -> free p s = true -> p c = true ->
strip_by p (s ++ String c EmptyString) = s.
Proof.
intros Hne Hs Hc. unfold strip_by.
destruct s as [|x s]; [congruence|].
assert (Hx : p x = false).
{ cbn in Hs. apply andb_prop in Hs as [Hx _]. apply negb_true_iff, Hx. }
cbn [String.append lstrip_by]. rewrite Hx.
apply (rstrip_app_space p (String x s) c); assumption.
Qed.

(** [int] reads a line of digits. *)
Lemma int_digits_line (ds : string) :
digits ds = true -> PyStr.int (ds ++ Sample.nl) = Ok (value ds).
Proof.
intros Hd. unfold PyStr.int, parse_int, Sample.nl.
rewrite strip_line.
- fold (parse_int ds). pose proof (int_digits ds Hd) as H.
  unfold PyStr.int, parse_int in H.
  rewrite strip_free in H
    by (apply (digits_free is_cspace);
        [intros x Hx; apply (digit_facts x Hx) | apply digits_all, Hd]).
  unfold parse_int.
  destruct (sign ds) as [neg body].
  destruct (digitpart 0 0 body) as [[v n]|]; [|discriminate H].
  injection H as <-. reflexivity.
- intros ->. discriminate Hd.
- apply (digits_free is_cspace);
    [intros x Hx; apply (digit_facts x Hx) | apply digits_all, Hd].
- reflexivity.
Qed.

End MoreText.


(** ** Integers to text and back *)

Section Decimal.

Import Text Version PyStr.

Ltac eval_digit :=
  match goal with
  | |- context [digit_val ?c] =>
      let x := eval vm_compute in (digit_val c) in
      change (digit_val c) with x
  end.

Lemma uint_all_digits (d : Decimal.uint) :
all is_digit (NilEmpty.string_of_uint d) = true.
Proof. induction d; cbn [NilEmpty.string_of_uint all]; try rewrite IHd; reflexivity. Qed.

Lemma uint_value_acc (d : Decimal.uint) (acc : positive) :
value_from (Zpos acc) (NilEmpty.string_of_uint d) = Zpos (Pos.of_uint_acc d acc).
Proof.
revert acc. induction d; intros acc;
  cbn [NilEmpty.string_of_uint value_from Pos.of_uint_acc]; try reflexivity;
  match goal with
  | |- value_from ?v _ = Zpos (Pos.of_uint_acc _ ?p) =>
      replace v with (Zpos p) by (eval_digit; lia)
  end; apply IHd.
Qed.

Lemma uint_value (d : Decimal.uint) :
value (NilEmpty.string_of_uint d) = Z.of_N (Pos.of_uint d).
Proof.
unfold value. induction d;
  cbn [NilEmpty.string_of_uint value_from Pos.of_uint]; try reflexivity;
  try (match goal with
       | |- value_from ?v _ = Z.of_N (Npos (Pos.of_uint_acc _ ?p)) =>
           replace v with (Zpos p) by (eval_digit; lia)
       end; apply uint_value_acc).
replace (10 * 0 + digit_val "0") with 0 by reflexivity. exact IHd.
Qed.

Lemma uint_not_empty (d : Decimal.uint) :
d <> Decimal.Nil -> NilEmpty.string_of_uint d <> EmptyString.
Proof. destruct d; [congruence | discriminate..]. Qed.

Lemma pos_string (p : positive) :
NilZero.string_of_uint (Pos.to_uint p) = NilEmpty.string_of_uint (Pos.to_uint p).
Proof.
pose proof (Unsigned.to_uint_nonnil p) as H.
destruct (Pos.to_uint p); [congruence | reflexivity..].
Qed.

Lemma pos_not_empty (p : positive) :
NilEmpty.string_of_uint (Pos.to_uint p) <> EmptyString.
Proof. apply uint_not_empty, Unsigned.to_uint_nonnil. Qed.

Lemma pos_value (p : positive) :
value (NilEmpty.string_of_uint (Pos.to_uint p)) = Zpos p.
Proof. rewrite uint_value, Unsigned.of_to. reflexivity. Qed.

(** The text of a natural number is a non-empty string of digits, and
    spells it. *)
Lemma str_of_int_all_digits (n : Z) :
0 <= n -> str_of_int n <> EmptyString /\ all is_digit (str_of_int n) = true.
Proof.
intros Hn. unfold str_of_int. destruct n as [|p|p]; [split; [discriminate|reflexivity]| |lia].
cbn [Z.to_int NilZero.string_of_int]. rewrite pos_string.
split; [apply pos_not_empty | apply uint_all_digits].
Qed.

Lemma str_of_int_value (n : Z) : 0 <= n -> value (str_of_int n) = n.
Proof.
intros Hn. unfold str_of_int. destruct n as [|p|p]; [reflexivity| |lia].
cbn [Z.to_int NilZero.string_of_int]. rewrite pos_string. apply pos_value.
Qed.

End Decimal.

(** ** Paths *)

Section Paths.

Import Text Version PyStr.

Lemma length_snoc (s : string) (c : ascii) :
String.length (s ++ String c EmptyString) = S (String.length s).
Proof. induction s as [|x s IH]; cbn; [reflexivity | rewrite IH; reflexivity]. Qed.

Lemma drop_last (s : string) (c : ascii) :
drop (String.length (s ++ String c EmptyString) - 1) (s ++ String c EmptyString)
= String c EmptyString.
Proof.
induction s as [|x s IH]; [reflexivity|].
cbn [String.append String.length]. rewrite length_snoc in *.
cbn [Nat.sub] in *. rewrite Nat.sub_0_r in *. cbn [drop]. exact IH.
Qed.

Lemma snoc_cases (s : string) :
s = EmptyString \/ exists t c, s = t ++ String c EmptyString.
Proof.
induction s as [|x s IH]; [left; reflexivity|]. right.
destruct IH as [->|(t & c & ->)].
- exists EmptyString, x. reflexivity.
- exists (String x t), c. reflexivity.
Qed.

Lemma all_snoc p (t : string) (c : ascii) :
all p (t ++ String c EmptyString) = true -> p c = true.
Proof.
rewrite all_app. cbn [all]. rewrite andb_true_r.
intros [_ H]%andb_prop. exact H.
Qed.

(** [os.path.join] under a directory that ends with [c], for a relative
    name. *)
Lemma path_join_dir (dir name : string) (c : ascii) :
String.prefix "/" name = false ->
path_join (dir ++ String c EmptyString) name =
if Ascii.eqb c "/" then dir ++ String c name
else dir ++ String c (String "/" name).
Proof.
intros Hrel. unfold path_join. rewrite Hrel, drop_last.
assert (He : String.eqb (dir ++ String c EmptyString) EmptyString = false)
  by (destruct dir; reflexivity).
rewrite He. cbn [orb String.eqb].
destruct (Ascii.eqb c "/"); rewrite append_assoc; reflexivity.
Qed.

(** X14: The PID file [_is_daemon_running] looks for: under
    [/run/user/<uid>] when [XDG_RUNTIME_DIR] is not set; the bare name,
    relative to the working directory, when the variable is set and
    empty; under the directory named by the variable otherwise, one slash
    in between whether the variable ends with a slash or not. *)
Theorem daemon_pid_file_cases (h : Host) :
(environ h "XDG_RUNTIME_DIR" = None -> 0 <= getuid h ->
 daemon_pid_file h =
   "/run/user/" ++ str_of_int (getuid h) ++ "/openrazer-daemon.pid") /\
(environ h "XDG_RUNTIME_DIR" = Some EmptyString ->
 daemon_pid_file h = "openrazer-daemon.pid") /\
(forall dir c,
   environ h "XDG_RUNTIME_DIR" = Some (dir ++ String c EmptyString) ->
   daemon_pid_file h =
     if Ascii.eqb c "/" then dir ++ "/openrazer-daemon.pid"
     else dir ++ String c "/openrazer-daemon.pid").
Proof.
unfold daemon_pid_file. split; [|split].
- intros -> Huid.
  destruct (str_of_int_all_digits (getuid h) Huid) as [Hne Hall].
  set (uid := str_of_int (getuid h)) in *.
  assert (Hcons : exists x r, uid = String x r /\ is_digit x = true).
  { destruct uid as [|x r]; [congruence|]. exists x, r.
    cbn [all] in Hall. apply andb_prop in Hall as [Hx _]. split; [reflexivity | exact Hx]. }
  destruct Hcons as (x & r & Huid' & Hx).
  assert (Hfirst : path_join "/run/user/" uid = "/run/user/" ++ uid).
  { unfold path_join. rewrite Huid'.
    destruct x as [[] [] [] [] [] [] [] []]; try discriminate Hx; reflexivity. }
  rewrite Hfirst.
  destruct (snoc_cases uid) as [E|(t & c & E)].
  { rewrite E in Huid'. discriminate Huid'. }
  assert (Hc : is_digit c = true).
  { apply (all_snoc is_digit t c). rewrite <- E. exact Hall. }
  rewrite E.
  replace ("/run/user/" ++ t ++ String c EmptyString)
    with (("/run/user/" ++ t) ++ String c EmptyString)
    by (rewrite append_assoc; reflexivity).
  rewrite path_join_dir by reflexivity.
  assert (Hslash : Ascii.eqb c "/" = false).
  { destruct c as [[] [] [] [] [] [] [] []]; try discriminate Hc; reflexivity. }
  rewrite Hslash, !append_assoc. cbn [String.append]. reflexivity.
- intros ->. reflexivity.
- intros dir c ->. rewrite path_join_dir by reflexivity.
  destruct (Ascii.eqb_spec c "/") as [->|_]; reflexivity.
Qed.

End Paths.

(** ** The checks, one by one *)

Section CheckFacts.

Import Text Version PyStr.

Variable tr : string -> string.

Lemma version_not_empty a b c :
digits a = true -> String.eqb (version a b c) EmptyString = false.
Proof.
intros Ha. destruct (digits_cons a Ha) as (x & r & -> & _). reflexivity.
Qed.

Lemma three_pieces_not_empty (s : string) :
List.length (split "." s) = 3%nat -> String.eqb s EmptyString = false.
Proof. destruct s; [discriminate | reflexivity]. Qed.

(** X7: With the library present, an answer of status 200 whose stripped
    text is a well-formed version is compared with the version of the
    library: the check returns a result whose [passed] is the negation of
    the comparison. *)
Theorem up_to_date_compares_versions (h : Host) (text a b c a' b' c' : string) :
rclient_version h = Some (version a' b' c') ->
requests_get h remote_get_url = Ok (200, text) ->
strip text = version a b c ->
digits a = true -> digits b = true -> digits c = true ->
digits a' = true -> digits b' = true -> digits c' = true ->
exists r,
  _is_openrazer_up_to_date tr h = Ok (Some r) /\
  passed r = Some (negb (newer a b c a' b' c')).
Proof.
intros Hlib Hget Hstrip Ha Hb Hc Ha' Hb' Hc'.
unfold _is_openrazer_up_to_date. rewrite Hlib, Hget, Hstrip.
rewrite (split_version a b c Ha Hb Hc), Z.eqb_refl.
cbn [List.length Nat.eqb andb].
unfold truthy. rewrite (version_not_empty a b c Ha). cbn [negb].
rewrite (compare_well_formed a b c a' b' c') by assumption.
cbn [bind]. eexists. split; reflexivity.
Qed.

(** X8: When the server announces the very version of the library, the
    check passes. *)
Theorem up_to_date_same_version_passes (h : Host) (text a b c : string) :
rclient_version h = Some (version a b c) ->
requests_get h remote_get_url = Ok (200, text) ->
strip text = version a b c ->
digits a = true -> digits b = true -> digits c = true ->
exists r,
  _is_openrazer_up_to_date tr h = Ok (Some r) /\ passed r = Some true.
Proof.
intros Hlib Hget Hstrip Ha Hb Hc.
unfold _is_openrazer_up_to_date. rewrite Hlib, Hget, Hstrip.
rewrite (split_version a b c Ha Hb Hc), Z.eqb_refl.
cbn [List.length Nat.eqb andb].
unfold truthy. rewrite (version_not_empty a b c Ha). cbn [negb].
rewrite (compare_well_formed a b c a b c) by assumption.
rewrite (newer_irrefl a b c) by (apply digits_all; assumption).
cbn [bind]. eexists. split; reflexivity.
Qed.

(** X9: When the announced version has the greater [minor.patch] (of at
    most fifteen digits), the check fails, whatever the major numbers: also
    when the major number of the library is the greater one. *)
Theorem up_to_date_ignores_major_order (h : Host) (text a b c a' b' c' : string) :
rclient_version h = Some (version a' b' c') ->
requests_get h remote_get_url = Ok (200, text) ->
strip text = version a b c ->
digits a = true -> digits b = true -> digits c = true ->
digits a' = true -> digits b' = true -> digits c' = true ->
len b + len c <= 15 -> len b' + len c' <= 15 ->
(decimal b' c' < decimal b c)%Q ->
exists r,
  _is_openrazer_up_to_date tr h = Ok (Some r) /\ passed r = Some false.
Proof.
intros Hlib Hget Hstrip Ha Hb Hc Ha' Hb' Hc' Hlen Hlen' Hlt.
unfold _is_openrazer_up_to_date. rewrite Hlib, Hget, Hstrip.
rewrite (split_version a b c Ha Hb Hc), Z.eqb_refl.
cbn [List.length Nat.eqb andb].
unfold truthy. rewrite (version_not_empty a b c Ha). cbn [negb].
rewrite (compare_well_formed a b c a' b' c') by assumption.
rewrite (newer_complete a b c a' b' c')
  by (try apply digits_all; try assumption; right; exact Hlt).
cbn [bind]. eexists. split; reflexivity.
Qed.

(** X10: With the library present, a returned result has [passed] unknown
    exactly when no version was accepted from the server: the request
    raised, or the status was not 200, or the stripped text did not hold
    exactly two dots. *)
Theorem up_to_date_unknown_iff (h : Host) (local_version : string) (r : CheckResult) :
rclient_version h = Some local_version ->
_is_openrazer_up_to_date tr h = Ok (Some r) ->
(passed r = None <->
 (exists e, requests_get h remote_get_url = Raise e) \/
 (exists status_code text,
    requests_get h remote_get_url = Ok (status_code, text) /\
    (status_code <> 200 \/ count "." (strip text) <> 2%nat))).
Proof.
intros Hlib. unfold _is_openrazer_up_to_date. rewrite Hlib.
destruct (requests_get h remote_get_url) as [[status_code text]|e] eqn:Hget.
- destruct (Z.eqb_spec status_code 200) as [Hs|Hs];
  destruct (Nat.eqb_spec (List.length (split "." (strip text))) 3) as [Hl|Hl];
    cbn [andb truthy negb].
  + rewrite (three_pieces_not_empty _ Hl). cbn [negb].
    destruct (_is_version_newer_then (strip text) local_version); cbn [bind];
      [|discriminate].
    intros [= <-]. cbn [passed]. split; [discriminate|].
    intros [[e He]|(s & t & [= <- <-] & [Hne|Hne])]; [discriminate He|lia|].
    rewrite split_length in Hl. lia.
  + intros [= <-]. cbn [passed]. split; [intros _|reflexivity].
    right. exists status_code, text. split; [reflexivity|]. right.
    rewrite split_length in Hl. lia.
  + intros [= <-]. cbn [passed]. split; [intros _|reflexivity].
    right. exists status_code, text. split; [reflexivity|]. left. exact Hs.
  + intros [= <-]. cbn [passed]. split; [intros _|reflexivity].
    right. exists status_code, text. split; [reflexivity|]. left. exact Hs.
- cbn [truthy]. intros [= <-]. cbn [passed]. split; [intros _|reflexivity].
  left. exists e. reflexivity.
Qed.


(** The command [_run_dkms_checks] suggests, for every version. *)
Lemma dkms_install_command (version : string) :
replace "x.x.x" version "$ sudo dkms install -m openrazer-driver/x.x.x" =
"$ sudo dkms install -m openrazer-driver/" ++ version.
Proof.
unfold replace. cbn. rewrite append_empty. reflexivity.
Qed.

(** X12: With the library present and both commands run, [_run_dkms_checks]
    returns four results, each with a definite [passed]: whether the
    source tree of the version of the library exists, whether the tree
    built for the running kernel exists, whether [modprobe -n] ended with
    code 0, and whether the output of [lsmod] mentions [razer]: true
    when it does, false when it does not.  The second result suggests the
    install command for that version. *)
Theorem dkms_checks_with_library
  (h : Host) (version out1 out2 : string) (code1 code2 : Z) :
rclient_version h = Some version ->
popen h ["modprobe"; "-n"; "razerkbd"] = Ok (out1, code1) ->
popen h ["lsmod"] = Ok (out2, code2) ->
exists r1 r2 r3 r4,
  _run_dkms_checks tr h = Ok [r1; r2; r3; r4] /\
  passed r1 = Some (path_exists h ("/var/lib/dkms/openrazer-driver/" ++ version)) /\
  passed r2 = Some (path_exists h
    ("/var/lib/dkms/openrazer-driver/kernel-" ++ uname_release h ++ "-"
       ++ uname_machine h)) /\
  passed r3 = Some (code1 =? 0) /\
  passed r4 = Some (contains "razer" out2) /\
  (passed r4 = Some true <-> occurs "razer" out2) /\
  (passed r4 = Some false <-> ~ occurs "razer" out2) /\
  nth_error (suggestions r2) 2 =
    Some ("$ sudo dkms install -m openrazer-driver/" ++ version).
Proof.
intros Hlib Hprobe Hlsmod.
unfold _run_dkms_checks. rewrite Hlib. cbn [local bind].
rewrite Hprobe. cbn [bind]. rewrite Hlsmod. cbn [bind].
do 4 eexists. split; [reflexivity|].
cbn [passed suggestions nth_error fst snd].
split; [reflexivity|]. split; [reflexivity|]. split; [reflexivity|].
split; [reflexivity|].
rewrite <- contains_iff.
split; [|split].
- destruct (contains "razer" out2); split; intros H;
    try reflexivity; discriminate H.
- destruct (contains "razer" out2); split; intros H;
    try reflexivity; try discriminate H; congruence.
- rewrite dkms_install_command. reflexivity.
Qed.

(** X13: When the PID file exists and its first line is a decimal number and
    a line feed, [_is_daemon_running] returns, and passes exactly when the
    directory of that process exists under [/proc].  For the line
    [str(pid)], of a [pid] that is not negative, this is the directory
    [/proc/] followed by the same text. *)
Theorem daemon_running_follows_proc (h : Host) :
path_exists h (daemon_pid_file h) = true ->
(forall ds,
   readline h (daemon_pid_file h) = Ok (ds ++ Sample.nl) ->
   digits ds = true ->
   exists r,
     _is_daemon_running tr h = Ok r /\
     passed r = Some (path_exists h ("/proc/" ++ str_of_int (value ds)))) /\
(forall pid,
   0 <= pid -> (String.length (str_of_int pid) <= 4300)%nat ->
   readline h (daemon_pid_file h) = Ok (str_of_int pid ++ Sample.nl) ->
   exists r,
     _is_daemon_running tr h = Ok r /\
     passed r = Some (path_exists h ("/proc/" ++ str_of_int pid))).
Proof.
intros Hpid.
assert (Hds : forall ds,
   readline h (daemon_pid_file h) = Ok (ds ++ Sample.nl) ->
   digits ds = true ->
   exists r,
     _is_daemon_running tr h = Ok r /\
     passed r = Some (path_exists h ("/proc/" ++ str_of_int (value ds)))).
{ intros ds Hline Hd. unfold _is_daemon_running.
  rewrite Hpid, Hline. cbn [bind]. rewrite (int_digits_line ds Hd). cbn [bind].
  destruct (path_exists h ("/proc/" ++ str_of_int (value ds))); cbn [bind];
    eexists; split; reflexivity. }
split; [exact Hds|].
intros pid Hnonneg Hshort Hline.
destruct (str_of_int_all_digits pid Hnonneg) as [Hne Hall].
destruct (Hds (str_of_int pid) Hline (digits_intro _ Hne Hall Hshort))
  as (r & Hr & Hp).
exists r. split; [exact Hr|].
rewrite (str_of_int_value pid Hnonneg) in Hp. exact Hp.
Qed.

(** X15: When the glob matches and the dump ends with a space, a decimal
    number and a line feed, [_is_secure_boot_enabled] returns, and passes
    exactly when that last number is 0: the bytes before it play no
    part. *)
Theorem secure_boot_reads_last_number
  (h : Host) (file before ds : string) (others : list string) (code : Z) :
glob h "/sys/firmware/efi/efivars/SecureBoot*" = file :: others ->
popen h ["od"; "--address-radix=n"; "--format=u1"; file] =
  Ok (before ++ " " ++ ds ++ Sample.nl, code) ->
digits ds = true ->
exists r,
  _is_secure_boot_enabled tr h = Ok r /\ passed r = Some (value ds =? 0).
Proof.
intros Hglob Hod Hd. unfold _is_secure_boot_enabled.
rewrite Hglob, Hod. cbn [bind fst].
assert (Hall : all is_digit ds = true) by (apply digits_all, Hd).
assert (Hne : ds <> EmptyString) by (intros ->; discriminate Hd).
assert (Hfree : free (fun c => Ascii.eqb c " ") (ds ++ Sample.nl) = true).
{ rewrite free_app. rewrite (digits_free (fun c => Ascii.eqb c " ")).
  - reflexivity.
  - intros c Hc. destruct c as [[] [] [] [] [] [] [] []]; try discriminate Hc; reflexivity.
  - exact Hall. }
change (" " ++ ds ++ Sample.nl) with (String " " (ds ++ Sample.nl)).
destruct (split_last " " before (ds ++ Sample.nl) Hfree) as (pieces & _ & ->).
rewrite index_last_app. cbn [bind].
unfold strip, Sample.nl. rewrite strip_line.
- rewrite (int_digits ds Hd). cbn [bind]. eexists. split; reflexivity.
- exact Hne.
- apply (digits_free is_space); [|exact Hall].
  intros c Hc. destruct c as [[] [] [] [] [] [] [] []]; try discriminate Hc; reflexivity.
- reflexivity.
Qed.

(** X16: When the glob matches and the dump is empty (the variable cannot be
    read: the complaint of [od] goes to the standard error, which is not
    captured), [_is_secure_boot_enabled] raises [ValueError]. *)
Theorem secure_boot_empty_dump_raises
  (h : Host) (file : string) (others : list string) (code : Z) :
glob h "/sys/firmware/efi/efivars/SecureBoot*" = file :: others ->
popen h ["od"; "--address-radix=n"; "--format=u1"; file] = Ok (EmptyString, code) ->
exists msg, _is_secure_boot_enabled tr h = Raise (ValueError msg).
Proof.
intros Hglob Hod. unfold _is_secure_boot_enabled.
rewrite Hglob, Hod. eexists. reflexivity.
Qed.

(** X17: [_is_user_in_plugdev_group] passes exactly when the text [plugdev]
    occurs somewhere in the output of [groups], be it inside a longer
    name. *)
Theorem plugdev_group_is_substring (h : Host) (out : string) (code : Z) :
popen h ["groups"] = Ok (out, code) ->
exists r,
  _is_user_in_plugdev_group tr h = Ok r /\
  (passed r = Some true <-> occurs "plugdev" out) /\
  (passed r = Some false <-> ~ occurs "plugdev" out).
Proof.
intros Hgroups. unfold _is_user_in_plugdev_group. rewrite Hgroups. cbn [bind fst].
eexists. split; [reflexivity|]. cbn [passed].
rewrite <- contains_iff.
destruct (contains "plugdev" out); split; split; intros H;
  try reflexivity; try discriminate H; try congruence.
Qed.

(** X18: When the log exists and can be read, the check returns a result,
    which fails exactly when the text [Could not access /sys/] occurs in
    the lines put end to end: in particular when it occurs in one of
    them. *)
Theorem log_check_finds_error (h : Host) (lines : list string) :
path_exists h (log_path h) = true ->
readlines h (log_path h) = Ok lines ->
exists r,
  _is_sysfs_plugdev_permissions_ok tr h = Ok (Some r) /\
  (passed r = Some false <-> occurs "Could not access /sys/" (join lines)) /\
  (passed r = Some true <-> ~ occurs "Could not access /sys/" (join lines)) /\
  (forall line, In line lines -> occurs "Could not access /sys/" line ->
     passed r = Some false).
Proof.
intros Hlog Hread. unfold _is_sysfs_plugdev_permissions_ok.
rewrite Hlog, Hread. cbn [bind].
eexists. split; [reflexivity|]. cbn [passed].
assert (Hiff := contains_iff "Could not access /sys/" (join lines)).
destruct (contains "Could not access /sys/" (join lines)) eqn:Hc; cbn [negb].
- split; [|split].
  + split; [intros _; apply Hiff; reflexivity | reflexivity].
  + split; [discriminate | intros H; exfalso; apply H, Hiff; reflexivity].
  + reflexivity.
- assert (Hno : ~ occurs "Could not access /sys/" (join lines)).
  { intros H. apply Hiff in H. discriminate H. }
  split; [|split].
  + split; [discriminate | intros H; contradiction].
  + split; [intros _; exact Hno | reflexivity].
  + intros line Hin Hocc. exfalso. apply Hno.
    exact (occurs_in_join _ line lines Hin Hocc).
Qed.

End CheckFacts.

(** ** The runner, as a whole *)

Section RunnerFacts.

Variable tr : string -> string.
Variable fmt : exn -> string.

(** X19: A returned list holds, in this order: the results for the daemon
    being installed, the library being installed and the daemon running,
    the four results of [_run_dkms_checks], the result for Secure Boot
    when the firmware path exists and nothing in its place when it does
    not, the result for the group, and what the log check and the version
    check returned, a result or [None]. *)
Theorem report_order (h : Host) (l : list (option CheckResult)) :
returned (troubleshoot tr fmt h) = Results l ->
exists running d1 d2 d3 d4 plugdev sysfs uptodate secure_boot,
  _is_daemon_running tr h = Ok running /\
  _run_dkms_checks tr h = Ok [d1; d2; d3; d4] /\
  _is_user_in_plugdev_group tr h = Ok plugdev /\
  _is_sysfs_plugdev_permissions_ok tr h = Ok sysfs /\
  _is_openrazer_up_to_date tr h = Ok uptodate /\
  (if path_exists h "/sys/firmware/efi"
   then exists sb, _is_secure_boot_enabled tr h = Ok sb /\ secure_boot = [Some sb]
   else secure_boot = []) /\
  l = ([Some (_is_daemon_installed tr h); Some (_is_pylib_installed tr h);
        Some running; Some d1; Some d2; Some d3; Some d4]
       ++ secure_boot ++ [Some plugdev; sysfs; uptodate])%list.
Proof.
intros Hl.
destruct (results_shape tr fmt h l Hl)
  as (running & dkms & plugdev & sysfs & uptodate
      & Hr & Hd & Hp & Hs & Hu & Hefi & Hno & _).
pose proof (dkms_checks_length tr h dkms Hd) as Hlen.
destruct dkms as [|d1 [|d2 [|d3 [|d4 [|]]]]]; try discriminate Hlen.
destruct (path_exists h "/sys/firmware/efi") eqn:E.
- destruct (Hefi eq_refl) as (sb & Hsb & ->).
  exists running, d1, d2, d3, d4, plugdev, sysfs, uptodate, [Some sb].
  repeat (split; [assumption|]).
  split; [exists sb; split; [exact Hsb | reflexivity] | reflexivity].
- rewrite (Hno eq_refl).
  exists running, d1, d2, d3, d4, plugdev, sysfs, uptodate, [].
  repeat (split; [assumption|]).
  split; reflexivity.
Qed.

(** X20: On Linux [troubleshoot] returns a list exactly when none of the
    check functions it has to call raises; Secure Boot counts on machines
    with the firmware path only. *)
Theorem list_iff_no_fault (h : Host) :
uname_sysname h = "Linux" ->
((exists l, returned (troubleshoot tr fmt h) = Results l) <->
 (forall c, (c = SecureBoot -> path_exists h "/sys/firmware/efi" = true) ->
            fault tr h c = None)).
Proof.
intros Hsys. split.
- intros [l Hl] c Hc.
  destruct (results_shape tr fmt h l Hl)
    as (running & dkms & plugdev & sysfs & uptodate
        & Hr & Hd & Hp & Hs & Hu & Hefi & _ & _).
  destruct c; cbn [fault]; rewrite ?Hr, ?Hd, ?Hp, ?Hs, ?Hu; try reflexivity.
  destruct (Hefi (Hc eq_refl)) as (sb & -> & _). reflexivity.
- intros Hnone.
  unfold troubleshoot. rewrite (linux_eqb h Hsys).
  unfold checks, seq, invoke, skip; cbn.
  pose proof (Hnone DaemonRunning ltac:(discriminate)) as H1.
  pose proof (Hnone DkmsChecks ltac:(discriminate)) as H2.
  pose proof (Hnone PlugdevGroup ltac:(discriminate)) as H4.
  pose proof (Hnone SysfsPermissions ltac:(discriminate)) as H5.
  pose proof (Hnone UpToDate ltac:(discriminate)) as H6.
  cbn [fault] in H1, H2, H4, H5, H6.
  destruct (_is_daemon_running tr h); [|discriminate H1]. cbn.
  destruct (_run_dkms_checks tr h); [|discriminate H2]. cbn.
  destruct (_is_user_in_plugdev_group tr h); [|discriminate H4].
  destruct (_is_sysfs_plugdev_permissions_ok tr h); [|discriminate H5].
  destruct (_is_openrazer_up_to_date tr h); [|discriminate H6].
  destruct (path_exists h "/sys/firmware/efi") eqn:E; cbn.
  + pose proof (Hnone SecureBoot (fun _ => eq_refl)) as H3. cbn [fault] in H3.
    destruct (_is_secure_boot_enabled tr h); [|discriminate H3]. cbn.
    eexists. reflexivity.
  + eexists. reflexivity.
Qed.

(** The calls made before the one that is blamed all returned. *)
Ltac earlier_returned :=
  let c := fresh "c" in
  let Hin := fresh "Hin" in
  intros c Hin;
  repeat (destruct Hin as [<-|Hin];
          [ cbn [fault];
            try match goal with
                | |- fault_of ?t = None =>
                    match goal with E : t = _ |- _ => rewrite E end
                end;
            reflexivity
          | ]);
  destruct Hin.

Ltac blame_last e before c :=
  intros [= <-]; exists c, e, before;
  split; [reflexivity|];
  split; [cbn [fault];
          match goal with
          | |- fault_of ?t = _ =>
              match goal with E : t = _ |- _ => rewrite E end
          end; reflexivity|];
  split; [reflexivity | earlier_returned].

(** X21: When [troubleshoot] returns a text, the text is the formatted
    exception of the last check function that was called; every call
    before it returned, and no check function was called after it. *)
Theorem error_string_blames_last_call (h : Host) (s : string) :
returned (troubleshoot tr fmt h) = ErrorString s ->
exists c e before,
  calls (final (troubleshoot tr fmt h)) = (before ++ [c])%list /\
  fault tr h c = Some e /\
  s = fmt e /\
  forall c', In c' before -> fault tr h c' = None.
Proof.
unfold troubleshoot.
destruct (negb (String.eqb (uname_sysname h) "Linux")); [discriminate|].
unfold checks, seq, invoke, skip; cbn.
destruct (_is_daemon_running tr h) as [?|e] eqn:E1; cbn;
  [|blame_last e [DaemonInstalled; PylibInstalled] DaemonRunning].
destruct (_run_dkms_checks tr h) as [?|e] eqn:E2; cbn;
  [|blame_last e [DaemonInstalled; PylibInstalled; DaemonRunning] DkmsChecks].
destruct (path_exists h "/sys/firmware/efi"); cbn.
- destruct (_is_secure_boot_enabled tr h) as [?|e] eqn:E3; cbn;
    [|blame_last e [DaemonInstalled; PylibInstalled; DaemonRunning; DkmsChecks]
        SecureBoot].
  destruct (_is_user_in_plugdev_group tr h) as [?|e] eqn:E4; cbn;
    [|blame_last e [DaemonInstalled; PylibInstalled; DaemonRunning; DkmsChecks;
                    SecureBoot] PlugdevGroup].
  destruct (_is_sysfs_plugdev_permissions_ok tr h) as [?|e] eqn:E5; cbn;
    [|blame_last e [DaemonInstalled; PylibInstalled; DaemonRunning; DkmsChecks;
                    SecureBoot; PlugdevGroup] SysfsPermissions].
  destruct (_is_openrazer_up_to_date tr h) as [?|e] eqn:E6; cbn;
    [discriminate
    |blame_last e [DaemonInstalled; PylibInstalled; DaemonRunning; DkmsChecks;
                   SecureBoot; PlugdevGroup; SysfsPermissions] UpToDate].
- destruct (_is_user_in_plugdev_group tr h) as [?|e] eqn:E4; cbn;
    [|blame_last e [DaemonInstalled; PylibInstalled; DaemonRunning; DkmsChecks]
        PlugdevGroup].
  destruct (_is_sysfs_plugdev_permissions_ok tr h) as [?|e] eqn:E5; cbn;
    [|blame_last e [DaemonInstalled; PylibInstalled; DaemonRunning; DkmsChecks;
                    PlugdevGroup] SysfsPermissions].
  destruct (_is_openrazer_up_to_date tr h) as [?|e] eqn:E6; cbn;
    [discriminate
    |blame_last e [DaemonInstalled; PylibInstalled; DaemonRunning; DkmsChecks;
                   PlugdevGroup; SysfsPermissions] UpToDate].
Qed.

(** X22: On Linux without the client library no list is ever returned:
    [troubleshoot] returns the text of an exception, that of
    [_is_daemon_running] when it raised and that of the unassigned
    [dkms_version] otherwise, and calls nothing after
    [_run_dkms_checks]. *)
Theorem no_library_no_report (h : Host) :
uname_sysname h = "Linux" ->
rclient_version h = None ->
exists e,
  returned (troubleshoot tr fmt h) = ErrorString (fmt e) /\
  (fault tr h DaemonRunning = Some e \/
   (fault tr h DaemonRunning = None /\ e = UnboundLocalError "dkms_version")) /\
  (List.length (calls (final (troubleshoot tr fmt h))) <= 4)%nat.
Proof.
intros Hsys Hlib.
assert (Hd : _run_dkms_checks tr h = Raise (UnboundLocalError "dkms_version")).
{ unfold _run_dkms_checks. rewrite Hlib. reflexivity. }
unfold troubleshoot. rewrite (linux_eqb h Hsys).
unfold checks, seq, invoke, skip; cbn.
destruct (_is_daemon_running tr h) as [running|e]; cbn.
- rewrite Hd; cbn. eexists. split; [reflexivity|]. split; [|lia].
  right. split; reflexivity.
- exists e. split; [reflexivity|]. split; [|lia]. left. reflexivity.
Qed.

(** X23: [troubleshoot] returns [None] on the other systems only. *)
Theorem not_applicable_iff (h : Host) :
returned (troubleshoot tr fmt h) = NotApplicable <-> uname_sysname h <> "Linux".
Proof.
unfold troubleshoot.
destruct (String.eqb_spec (uname_sysname h) "Linux") as [E|E]; cbn [negb].
- split; [|contradiction].
  destruct (checks tr h {| calls := []; results := [] |}) as [frame [e|]];
    discriminate.
- split; [intros _; exact E | reflexivity].
Qed.

End RunnerFacts.

(** ** The properties on the sample machines *)

Module Examples.

Import Sample Scenario Text Version.

Lemma version_newer_well_formed_witness :
_is_version_newer_then (version "3" "1" "0") (version "3" "0" "9") =
  Ok ((value "3" >? value "3")
      || Float.gt (nearest (decimal "1" "0")) (nearest (decimal "0" "9"))).
Proof.
apply (version_newer_well_formed "3" "1" "0" "3" "0" "9"); reflexivity.
Defined.

Lemma version_newer_sound_witness :
value "3" > value "3" \/ (decimal "0" "9" < decimal "1" "0")%Q.
Proof.
apply (version_newer_sound "3" "1" "0" "3" "0" "9"); reflexivity.
Defined.

Lemma version_newer_exact_witness :
_is_version_newer_then (version "2" "9" "9") (version "3" "0" "0") = Ok true <->
value "2" > value "3" \/ (decimal "0" "0" < decimal "9" "9")%Q.
Proof.
apply (version_newer_exact "2" "9" "9" "3" "0" "0");
  try reflexivity; vm_compute; discriminate.
Defined.

Lemma version_not_newer_than_itself_witness :
_is_version_newer_then (version "3" "0" "1") (version "3" "0" "1") = Ok false.
Proof.
apply (version_not_newer_than_itself "3" "0" "1"); reflexivity.
Defined.

Lemma version_two_components_raise_witness :
_is_version_newer_then (version "3" "0" "1") ("3" ++ "." ++ "0") = Raise IndexError.
Proof.
apply (version_two_components_raise "3" "0" "1" "3" "0"); reflexivity.
Defined.


Lemma up_to_date_compares_versions_witness :
exists r,
  _is_openrazer_up_to_date untranslated downgrade = Ok (Some r) /\
  passed r = Some (negb (newer "2" "9" "9" "3" "0" "0")).
Proof.
apply (up_to_date_compares_versions untranslated downgrade ("2.9.9" ++ nl)
         "2" "9" "9" "3" "0" "0"); reflexivity.
Defined.

Lemma up_to_date_same_version_passes_witness :
exists r,
  _is_openrazer_up_to_date untranslated linux = Ok (Some r) /\
  passed r = Some true.
Proof.
apply (up_to_date_same_version_passes untranslated linux ("3.0.1" ++ nl)
         "3" "0" "1"); reflexivity.
Defined.

Lemma up_to_date_ignores_major_order_witness :
exists r,
  _is_openrazer_up_to_date untranslated downgrade = Ok (Some r) /\
  passed r = Some false.
Proof.
apply (up_to_date_ignores_major_order untranslated downgrade ("2.9.9" ++ nl)
         "2" "9" "9" "3" "0" "0");
  try reflexivity; vm_compute; discriminate.
Defined.

Lemma up_to_date_unknown_iff_witness :
exists r,
  _is_openrazer_up_to_date untranslated server_error = Ok (Some r) /\
  (passed r = None <->
   (exists e, requests_get server_error remote_get_url = Raise e) \/
   (exists status_code text,
      requests_get server_error remote_get_url = Ok (status_code, text) /\
      (status_code <> 200 \/ count "." (PyStr.strip text) <> 2%nat))).
Proof.
eexists. split; [reflexivity|].
apply (up_to_date_unknown_iff untranslated server_error "3.0.1"); reflexivity.
Defined.


Lemma dkms_checks_with_library_witness :
exists r1 r2 r3 r4,
  _run_dkms_checks untranslated linux = Ok [r1; r2; r3; r4] /\
  passed r1 = Some (path_exists linux ("/var/lib/dkms/openrazer-driver/" ++ "3.0.1")) /\
  passed r2 = Some (path_exists linux
    ("/var/lib/dkms/openrazer-driver/kernel-" ++ uname_release linux ++ "-"
       ++ uname_machine linux)) /\
  passed r3 = Some (0 =? 0) /\
  passed r4 = Some (PyStr.contains "razer" ("razerkbd 45056 0" ++ nl)) /\
  (passed r4 = Some true <-> occurs "razer" ("razerkbd 45056 0" ++ nl)) /\
  (passed r4 = Some false <-> ~ occurs "razer" ("razerkbd 45056 0" ++ nl)) /\
  nth_error (suggestions r2) 2 =
    Some ("$ sudo dkms install -m openrazer-driver/" ++ "3.0.1").
Proof.
apply (dkms_checks_with_library untranslated linux "3.0.1"
         EmptyString ("razerkbd 45056 0" ++ nl) 0 0); reflexivity.
Defined.

Lemma daemon_running_follows_proc_witness :
exists r,
  _is_daemon_running untranslated linux = Ok r /\
  passed r = Some (path_exists linux ("/proc/" ++ PyStr.str_of_int 4242)).
Proof.
destruct (daemon_running_follows_proc untranslated linux eq_refl) as [_ Hpid].
apply (Hpid 4242); [discriminate | apply Nat.leb_le; reflexivity | reflexivity].
Defined.

Lemma daemon_pid_file_cases_witness :
daemon_pid_file no_runtime_dir =
  "/run/user/" ++ PyStr.str_of_int (getuid no_runtime_dir)
    ++ "/openrazer-daemon.pid".
Proof.
destruct (daemon_pid_file_cases no_runtime_dir) as (Hunset & _ & _).
apply Hunset; [reflexivity | discriminate].
Defined.

Lemma secure_boot_reads_last_number_witness :
exists r,
  _is_secure_boot_enabled untranslated secure_boot_on = Ok r /\
  passed r = Some (value "1" =? 0).
Proof.
apply (secure_boot_reads_last_number untranslated secure_boot_on
         "/sys/firmware/efi/efivars/SecureBoot-8be4df61-93ca-11d2-aa0d-00e098032b8c"
         "   6   0   0   0  " "1" [] 0); reflexivity.
Defined.

Lemma secure_boot_empty_dump_raises_witness :
exists msg,
  _is_secure_boot_enabled untranslated empty_dump = Raise (ValueError msg).
Proof.
apply (secure_boot_empty_dump_raises untranslated empty_dump
         "/sys/firmware/efi/efivars/SecureBoot-8be4df61-93ca-11d2-aa0d-00e098032b8c"
         [] 1); reflexivity.
Defined.

Lemma plugdev_group_is_substring_witness :
exists r,
  _is_user_in_plugdev_group untranslated lookalike_group = Ok r /\
  (passed r = Some true <-> occurs "plugdev" ("user notplugdev" ++ nl)) /\
  (passed r = Some false <-> ~ occurs "plugdev" ("user notplugdev" ++ nl)).
Proof.
apply (plugdev_group_is_substring untranslated lookalike_group
         ("user notplugdev" ++ nl) 0); reflexivity.
Defined.

Lemma log_check_finds_error_witness :
exists r,
  _is_sysfs_plugdev_permissions_ok untranslated log_with_error = Ok (Some r) /\
  passed r = Some false.
Proof.
destruct (log_check_finds_error untranslated log_with_error
            ["daemon started" ++ nl;
             "Could not access /sys/bus/hid/drivers/razerkbd" ++ nl]
            eq_refl eq_refl) as (r & Hr & _ & _ & Hline).
exists r. split; [exact Hr|].
apply (Hline ("Could not access /sys/bus/hid/drivers/razerkbd" ++ nl)).
- right. left. reflexivity.
- exists EmptyString, ("bus/hid/drivers/razerkbd" ++ nl). reflexivity.
Defined.

Lemma report_order_witness :
exists l,
  returned (troubleshoot untranslated show linux) = Results l /\
  exists sb, _is_secure_boot_enabled untranslated linux = Ok sb /\
             nth_error l 7 = Some (Some sb).
Proof.
eexists. split; [reflexivity|].
match goal with
| |- exists sb, _ /\ nth_error ?l 7 = _ =>
    destruct (report_order untranslated show linux l eq_refl)
      as (running & d1 & d2 & d3 & d4 & plugdev & sysfs & uptodate & part
          & _ & _ & _ & _ & _ & (sb & Hsb & _) & _)
end.
exists sb. split; [exact Hsb|].
vm_compute in Hsb. injection Hsb as <-. reflexivity.
Defined.

Lemma list_iff_no_fault_witness :
(exists l, returned (troubleshoot untranslated show linux) = Results l) <->
(forall c, (c = SecureBoot -> path_exists linux "/sys/firmware/efi" = true) ->
           fault untranslated linux c = None).
Proof.
apply (list_iff_no_fault untranslated show linux). reflexivity.
Defined.

Lemma error_string_blames_last_call_witness :
exists c e before,
  calls (final (troubleshoot untranslated show no_modprobe)) = (before ++ [c])%list /\
  fault untranslated no_modprobe c = Some e /\
  "OSError: No such file or directory: 'modprobe'" = show e /\
  forall c', In c' before -> fault untranslated no_modprobe c' = None.
Proof.
apply (error_string_blames_last_call untranslated show no_modprobe). reflexivity.
Defined.

Lemma no_library_no_report_witness :
exists e,
  returned (troubleshoot untranslated show (without_library linux)) =
    ErrorString (show e) /\
  (fault untranslated (without_library linux) DaemonRunning = Some e \/
   (fault untranslated (without_library linux) DaemonRunning = None /\
    e = UnboundLocalError "dkms_version")) /\
  (List.length (calls (final (troubleshoot untranslated show (without_library linux))))
   <= 4)%nat.
Proof.
apply (no_library_no_report untranslated show (without_library linux));
  reflexivity.
Defined.

(** Sixteen digits are too many for the doubles: these two versions
    differ in the last digit of the patch, and neither is newer. *)
Example sixteen_digits_collide :
_is_version_newer_then "1.9.000000000000002" "1.9.000000000000001" = Ok false /\
(decimal "9" "000000000000001" < decimal "9" "000000000000002")%Q.
Proof. split; vm_compute; reflexivity. Qed.

End Examples.
